(** * A shallow embedding of [app.py]

    The program is a Flask front end over a CrewAI pipeline.  Its own code is
    glue: a column-name normalisation for the loaded CSV, a pydantic schema
    for the agent configuration, a crew assembler, and one request handler.
    The embedding keeps that shape: Python text is a list of code points,
    dictionaries whose order is observable are association lists, the fixed
    tool table is a [gmap], and the module-level script and the handlers run
    in a small state-and-exception monad. *)

From Stdlib Require Import String Ascii.
From stdpp Require Import base option list gmap.

Local Open Scope N_scope.
#[local] Set Warnings "-register-all".

(** ** Python text *)

(** A Python [str] is a sequence of Unicode code points. *)
Abbreviation pystr := (list N).

(** An ASCII literal of the source, as a Python [str]. *)
Definition py (s : string) : pystr :=
  (fun a => N_of_ascii a) <$> list_ascii_of_string s.

(** [str.isspace] on one code point: the characters [str.strip()] removes
    when it is called without an argument. *)
Definition is_space (c : N) : bool :=
  ((9 <=? c) && (c <=? 13)) || ((28 <=? c) && (c <=? 32))
  || (c =? 133) || (c =? 160) || (c =? 5760)
  || ((8192 <=? c) && (c <=? 8202))
  || (c =? 8232) || (c =? 8233) || (c =? 8239) || (c =? 8287) || (c =? 12288).

Fixpoint lstrip (s : pystr) : pystr :=
  match s with
  | [] => []
  | c :: s' => if is_space c then lstrip s' else s
  end.

Definition rstrip (s : pystr) : pystr := reverse (lstrip (reverse s)).

(** [s.strip()] *)
Definition strip (s : pystr) : pystr := rstrip (lstrip s).

(** [startswith] *)
Fixpoint startswith (s p : pystr) {struct p} : bool :=
  match p, s with
  | [], _ => true
  | a :: p', b :: s' => (a =? b) && startswith s' p'
  | _ :: _, [] => false
  end.

(** Left-to-right scan of [s.replace(old, new)] for a non-empty [old]:
    [skip] counts the characters of a match that are still to be consumed. *)
Fixpoint replace_scan (old new : pystr) (skip : nat) (s : pystr) : pystr :=
  match s with
  | [] => []
  | c :: s' =>
      match skip with
      | S k => replace_scan old new k s'
      | O =>
          if startswith s old
          then new ++ replace_scan old new (pred (length old)) s'
          else c :: replace_scan old new O s'
      end
  end.

(** [s.replace(old, new)]: every non-overlapping occurrence, leftmost first;
    an empty [old] matches before every character and at the end. *)
Definition str_replace (old new s : pystr) : pystr :=
  match old with
  | [] => new ++ (s ≫= fun c => c :: new)
  | _ => replace_scan old new O s
  end.

(** ** Dataset loader: column labels

    [df.columns.str.strip().str.replace(' ', '_').str.replace('(', '')
        .str.replace(')', '').str.replace('/', '_')], on one label.  Every
    pattern is a single character, which pandas replaces literally. *)
Definition normalize_column (h : pystr) : pystr :=
  str_replace (py "/") (py "_")
    (str_replace (py ")") (py "")
      (str_replace (py "(") (py "")
        (str_replace (py " ") (py "_")
          (strip h)))).

(** The characters the normalisation is meant to remove. *)
Definition forbidden : list N := py " " ++ py "(" ++ py ")" ++ py "/".

(** ** Configuration values

    What [yaml.safe_load] returns for a document made of nulls, booleans,
    integers, texts, sequences, and mappings with text keys (a Python
    [dict]).  Floats, timestamps and binary scalars are not modelled. *)
Inductive yaml : Type :=
  | YNull
  | YBool (b : bool)
  | YInt (z : Z)
  | YStr (s : pystr)
  | YSeq (items : list yaml)
  | YMap (entries : gmap pystr yaml).

(** ** Exceptions *)
Inductive exn : Type :=
  | ValueError (msg : pystr)
  | TypeError
  | KeyError (key : pystr)
  | FileNotFoundError
  | ValidationError
  | LibraryError        (* any other [Exception] raised outside app.py *)
  | SystemExit.         (* raised by [exit()] *)

(** [isinstance(e, Exception)]: [SystemExit] derives from [BaseException]
    only, so [except Exception] lets it through. *)
Definition is_Exception (e : exn) : bool :=
  match e with SystemExit => false | _ => true end.

(** A computation that returns or raises. *)
#[global] Instance exn_ret : MRet (sum exn) := fun A => inr.
#[global] Instance exn_bind : MBind (sum exn) := fun A B f x =>
  match x with
  | inl e => inl e
  | inr a => f a
  end.

(** ** Pydantic schemas

    The two [BaseModel] classes, validated as pydantic 2 does by default
    (crewai depends on it): no coercion of other scalars to [str], the
    documented conversions to [bool], defaults for absent keys, unknown keys
    ignored. *)

Module AgentConfig.
Record t := mk {
  name : pystr;
  role : pystr;
  goal : pystr;
  backstory : pystr;
  tools : list pystr;
  allow_delegation : bool;
  verbose : bool;
}.
End AgentConfig.

Module CrewConfig.
Record t := mk {
  agents : list AgentConfig.t;
}.
End CrewConfig.

(** ASCII lower-casing, as the boolean parser compares its words. *)
Definition ascii_lower (c : N) : N :=
  if (65 <=? c) && (c <=? 90) then c + 32 else c.

(** A [str] field: only text is accepted, and any text is. *)
Definition validate_str (v : yaml) : exn + pystr :=
  match v with
  | YStr s => inr s
  | _ => inl ValidationError
  end.

(** A [bool] field: booleans, the integers 0 and 1, and the usual words. *)
Definition validate_bool (v : yaml) : exn + bool :=
  match v with
  | YBool b => inr b
  | YInt 0%Z => inr false
  | YInt 1%Z => inr true
  | YStr s =>
      let w := ascii_lower <$> s in
      if bool_decide (w ∈ [py "0"; py "off"; py "f"; py "false"; py "n"; py "no"])
      then inr false
      else if bool_decide (w ∈ [py "1"; py "on"; py "t"; py "true"; py "y"; py "yes"])
      then inr true
      else inl ValidationError
  | _ => inl ValidationError
  end.

(** Validation of every item of a sequence, failing on the first bad one. *)
Fixpoint validate_items {A} (f : yaml -> exn + A) (l : list yaml) : exn + list A :=
  match l with
  | [] => inr []
  | v :: l' =>
      match f v with
      | inl e => inl e
      | inr a =>
          match validate_items f l' with
          | inl e => inl e
          | inr r => inr (a :: r)
          end
      end
  end.

(** A [List[T]] field. *)
Definition validate_list {A} (f : yaml -> exn + A) (v : yaml) : exn + list A :=
  match v with
  | YSeq l => validate_items f l
  | _ => inl ValidationError
  end.

(** A field without a default must be present. *)
Definition required {A} (f : yaml -> exn + A) (o : option yaml) : exn + A :=
  match o with
  | Some v => f v
  | None => inl ValidationError
  end.

(** A field with a default takes it when the key is absent. *)
Definition optional {A} (f : yaml -> exn + A) (d : A) (o : option yaml) : exn + A :=
  match o with
  | Some v => f v
  | None => inr d
  end.

(** Validation of one agent entry against [AgentConfig]; keys the schema
    does not name are ignored. *)
Definition validate_AgentConfig (v : yaml) : exn + AgentConfig.t :=
  match v with
  | YMap m =>
      n ← required validate_str (m !! py "name");
      r ← required validate_str (m !! py "role");
      g ← required validate_str (m !! py "goal");
      b ← required validate_str (m !! py "backstory");
      t ← optional (validate_list validate_str) [] (m !! py "tools");
      d ← optional validate_bool false (m !! py "allow_delegation");
      vb ← optional validate_bool true (m !! py "verbose");
      inr (AgentConfig.mk n r g b t d vb)
  | _ => inl ValidationError
  end.

(** [CrewConfig] called on the unpacked [config_data]: unpacking needs a
    mapping, and raises [TypeError] on anything else. *)
Definition validate_CrewConfig (config_data : yaml) : exn + CrewConfig.t :=
  match config_data with
  | YMap m =>
      a ← required (validate_list validate_AgentConfig) (m !! py "agents");
      inr (CrewConfig.mk a)
  | _ => inl TypeError
  end.

(** ** Tools, agents, tasks and the crew *)

(** The four functions decorated with [@tool]. *)
Inductive Tool : Type := list_tables | tables_schema | execute_sql | check_sql.

(** The name each decorator registers. *)
Definition tool_name (t : Tool) : pystr :=
  match t with
  | list_tables => py "list_tables"
  | tables_schema => py "tables_schema"
  | execute_sql => py "execute_sql"
  | check_sql => py "check_sql"
  end.

Definition tool_mapping : gmap pystr Tool :=
  <[py "check_sql" := check_sql]>
    (<[py "execute_sql" := execute_sql]>
      (<[py "tables_schema" := tables_schema]>
        (<[py "list_tables" := list_tables]> ∅))).

Module LLM.
Record t := mk {
  model : pystr;
  api_key : pystr;
}.
End LLM.

Module Agent.
Record t := mk {
  role : pystr;
  goal : pystr;
  backstory : pystr;
  llm : LLM.t;
  tools : list Tool;
  allow_delegation : bool;
  verbose : bool;
}.
End Agent.

Module Task.
(** [context] is [None] when the keyword is not passed. *)
Inductive t : Type := mk {
  description : pystr;
  expected_output : pystr;
  agent : Agent.t;
  context : option (list t);
}.
End Task.

Module Process.
Inductive t : Type := sequential | hierarchical.
End Process.

Module Crew.
Record t := mk {
  agents : list Agent.t;
  tasks : list Task.t;
  process : Process.t;
  verbose : bool;
}.
End Crew.

(** ** Python dictionaries whose order is observable *)

Section Dict.
Context {V : Type}.

(** [d[k] = v]: a present key keeps its position, a new key goes last. *)
Fixpoint dict_set (k : pystr) (v : V) (d : list (pystr * V)) : list (pystr * V) :=
  match d with
  | [] => [(k, v)]
  | (k', v') :: d' =>
      if decide (k' = k) then (k, v) :: d' else (k', v') :: dict_set k v d'
  end.

(** [d.get(k)] *)
Fixpoint dict_get (k : pystr) (d : list (pystr * V)) : option V :=
  match d with
  | [] => None
  | (k', v') :: d' => if decide (k' = k) then Some v' else dict_get k d'
  end.

(** [d[k]], which raises [KeyError] on an absent key. *)
Definition dict_getitem (k : pystr) (d : list (pystr * V)) : exn + V :=
  match dict_get k d with
  | Some v => inr v
  | None => inl (KeyError k)
  end.

(** [list(d.values())] *)
Definition dict_values (d : list (pystr * V)) : list V := snd <$> d.
End Dict.

(** ** The world outside app.py *)

Record DataFrame := mkDataFrame {
  columns : list pystr;
  rows : list (list pystr);
}.

(** What the libraries and the operating system answer.  Each fallible call
    returns its value or the exception it raises. *)
Record Env := mkEnv {
  environ : gmap pystr pystr;             (* after [load_dotenv()] *)
  read_csv : pystr -> exn + DataFrame;    (* [pd.read_csv(path)] *)
  sqlite3_connect : pystr -> exn + unit;  (* [sqlite3.connect(file)] *)
  to_sql : DataFrame -> exn + unit;       (* [df.to_sql(..., if_exists='replace')] *)
  from_uri : pystr -> exn + unit;         (* [SQLDatabase.from_uri(uri)] *)
  safe_load : pystr -> exn + yaml;        (* [open(path)] then [yaml.safe_load] *)
  dedent : pystr -> pystr;                (* [textwrap.dedent] *)
  exn_str : exn -> pystr;                 (* the text of an exception in an f-string *)
  (* [crew.kickoff(inputs=...)], by the number of kickoffs made before it:
     the pipeline may answer the same question differently each time *)
  crew_kickoff : nat -> Crew.t -> list (pystr * pystr) -> exn + pystr;
}.

(** What the program changes while it runs. *)
Record State := mkState {
  log : list pystr;                       (* [app.logger.error] records *)
  finance : option DataFrame;             (* table [finance] of finance.db *)
  crews_built : nat;                      (* calls of the [Crew] constructor *)
  kickoffs : list (Crew.t * list (pystr * pystr));
  listening : bool;                       (* [app.run] has bound the server *)
}.

(** ** The monad of the script and the handlers *)

Definition M (A : Type) : Type := State -> (exn + A) * State.

#[global] Instance M_ret : MRet M := fun A a s => (inr a, s).
#[global] Instance M_bind : MBind M := fun A B f m s =>
  match m s with
  | (inl e, s') => (inl e, s')
  | (inr a, s') => f a s'
  end.

Definition raise {A} (e : exn) : M A := fun s => (inl e, s).

(** The result of a call that touches no state of ours. *)
Definition call {A} (r : exn + A) : M A := fun s => (r, s).

(** [exit()] *)
Definition exit {A} : M A := raise SystemExit.

(** [try: body] followed by [except] clauses, tried in order; a clause is a
    test on the exception and a handler. *)
Fixpoint find_clause {A} (e : exn) (clauses : list ((exn -> bool) * (exn -> M A)))
    : option (M A) :=
  match clauses with
  | [] => None
  | (test, handler) :: rest =>
      if test e then Some (handler e) else find_clause e rest
  end.

Definition try_except {A} (body : M A) (clauses : list ((exn -> bool) * (exn -> M A)))
    : M A := fun s =>
  match body s with
  | (inl e, s') =>
      match find_clause e clauses with
      | Some handler => handler s'
      | None => (inl e, s')
      end
  | r => r
  end.

Definition is_FileNotFoundError (e : exn) : bool :=
  match e with FileNotFoundError => true | _ => false end.

(** [app.logger.error(msg)] *)
Definition logger_error (msg : pystr) : M unit := fun s =>
  (inr tt, mkState (log s ++ [msg]) (finance s) (crews_built s) (kickoffs s) (listening s)).

(** The table written by [to_sql] replaces any earlier one. *)
Definition store_table (df : DataFrame) : M unit := fun s =>
  (inr tt, mkState (log s) (Some df) (crews_built s) (kickoffs s) (listening s)).

(** [Crew(...)] *)
Definition new_Crew (c : Crew.t) : M Crew.t := fun s =>
  (inr c, mkState (log s) (finance s) (S (crews_built s)) (kickoffs s) (listening s)).

Definition bind_server : M unit := fun s =>
  (inr tt, mkState (log s) (finance s) (crews_built s) (kickoffs s) true).

(** Python truthiness of an optional text: [None] and [''] are falsy. *)
Definition truthy (o : option pystr) : bool :=
  match o with
  | Some (_ :: _) => true
  | _ => false
  end.

(** ** HTTP *)

Inductive Method : Type := GET | POST.

Record Request := mkRequest {
  method : Method;
  path : pystr;
  form : list (pystr * pystr);            (* [request.form], in order *)
}.

Inductive Body : Type :=
  | Text (s : pystr)                      (* a literal string returned as is *)
  | Rendered (template : pystr) (context : list (pystr * pystr))
  | ErrorPage.                            (* the framework's own page for an error status *)

Record Response := mkResponse {
  status : nat;
  body : Body;
}.

(** ** The program *)

Section App.
Context (env : Env).

(** [load_config(path)] *)
Definition load_config (path : pystr) : M CrewConfig.t :=
  try_except
    (config_data ← call (safe_load env path);
     call (validate_CrewConfig config_data))
    [ (is_FileNotFoundError, fun _ =>
         logger_error (py "Error: Configuration file '" ++ path ++ py "' not found.");;
         exit);
      (is_Exception, fun e =>
         logger_error (py "Error loading or validating configuration: " ++ exn_str env e);;
         exit) ].

(** The [# --- Database Setup ---] block. *)
Definition database_setup : M unit :=
  try_except
    (df ← call (read_csv env (py "./Financial Statements.csv"));
     let df := mkDataFrame (normalize_column <$> columns df) (rows df) in
     call (sqlite3_connect env (py "finance.db"));;
     call (to_sql env df);;
     store_table df;;
     call (from_uri env (py "sqlite:///finance.db")))
    [ (is_FileNotFoundError, fun _ =>
         logger_error (py "Error: 'Financial Statements.csv' not found.");;
         exit);
      (is_Exception, fun e =>
         logger_error (py "Database setup failed: " ++ exn_str env e);;
         exit) ].

(** [[tool_mapping[tool_name] for tool_name in agent_conf.tools
      if tool_name in tool_mapping]] *)
Definition agent_tools (agent_conf : AgentConfig.t) : list Tool :=
  tool_name ← AgentConfig.tools agent_conf;
  match tool_mapping !! tool_name with
  | Some t => [t]
  | None => []
  end.

(** The [Agent(...)] call in the loop of [create_crew]. *)
Definition new_Agent (llm : LLM.t) (agent_conf : AgentConfig.t) : Agent.t :=
  {| Agent.role := AgentConfig.role agent_conf;
     Agent.goal := AgentConfig.goal agent_conf;
     Agent.backstory := dedent env (AgentConfig.backstory agent_conf);
     Agent.llm := llm;
     Agent.tools := agent_tools agent_conf;
     Agent.allow_delegation := AgentConfig.allow_delegation agent_conf;
     Agent.verbose := true |}.

(** The [for agent_conf in crew_config.agents] loop, from [agents = {}]. *)
Definition create_agents (llm : LLM.t) (crew_config : CrewConfig.t)
    : list (pystr * Agent.t) :=
  foldl (fun agents agent_conf =>
           dict_set (AgentConfig.name agent_conf) (new_Agent llm agent_conf) agents)
        [] (CrewConfig.agents crew_config).

(** [create_crew()]; [llm] is the module-level client. *)
Definition create_crew (llm : LLM.t) : M Crew.t :=
  crew_config ← load_config (py "config.yaml");
  let agents := create_agents llm crew_config in
  sql_dev ← call (dict_getitem (py "sql_dev") agents);
  let extract_data :=
    {| Task.description := py "Extract the data required to answer the question: {query}.";
       Task.expected_output := py "A list of data from the database that answers the question.";
       Task.agent := sql_dev;
       Task.context := None |} in
  data_analyst ← call (dict_getitem (py "data_analyst") agents);
  let analyze_data :=
    {| Task.description := py "Analyze the data provided and write a brief analysis for the question: {query}.";
       Task.expected_output := py "A short, easy-to-understand text analyzing the provided data.";
       Task.agent := data_analyst;
       Task.context := Some [extract_data] |} in
  report_writer ← call (dict_getitem (py "report_writer") agents);
  let write_report :=
    {| Task.description := dedent env (py "Write an executive summary of the report from the analysis. The report must be less than 50 words and presented in markdown.");
       Task.expected_output := py "A markdown report summarizing the analysis.";
       Task.agent := report_writer;
       Task.context := Some [analyze_data] |} in
  new_Crew
    {| Crew.agents := dict_values agents;
       Crew.tasks := [extract_data; analyze_data; write_report];
       Crew.process := Process.sequential;
       Crew.verbose := true |}.

(** Everything the module runs before the routes are defined; its value is
    the module-level [crew]. *)
Definition startup : M Crew.t :=
  let groq_api_key := environ env !! py "GROQ_API_KEY" in
  if negb (truthy groq_api_key)
  then raise (ValueError (py "GROQ_API_KEY environment variable not set. Please create a .env file and add it."))
  else
    let llm := LLM.mk (py "groq/llama-3.3-70b-versatile") (default [] groq_api_key) in
    database_setup;;
    create_crew llm.

(** [request.form.get(key)]: the first value sent under [key], or [None]. *)
Definition form_get (key : pystr) (form : list (pystr * pystr)) : option pystr :=
  dict_get key form.

(** [crew.kickoff(inputs=inputs)] *)
Definition kickoff (crew : Crew.t) (inputs : list (pystr * pystr)) : M pystr := fun s =>
  (crew_kickoff env (length (kickoffs s)) crew inputs,
   mkState (log s) (finance s) (crews_built s) (kickoffs s ++ [(crew, inputs)]) (listening s)).

(** [index()] *)
Definition index : M Response :=
  mret (mkResponse 200 (Rendered (py "index.html") [])).

(** [process()]; [crew] is the module-level crew. *)
Definition process (crew : Crew.t) (request : Request) : M Response :=
  let query := form_get (py "query") (form request) in
  if negb (truthy query)
  then mret (mkResponse 400 (Text (py "Please provide a query.")))
  else
    let inputs := [(py "query", default [] query)] in
    result ← kickoff crew inputs;
    mret (mkResponse 200
            (Rendered (py "result.html")
               [(py "query", default [] query); (py "result", result)])).

(** Flask's dispatch over the two registered routes: an unknown path is
    404, a known path under another method is 405, and an [Exception]
    escaping a view is answered with 500; the body of these three answers
    is the framework's page, of which only the status is modelled. *)
Definition dispatch (crew : Crew.t) (request : Request) : M Response :=
  try_except
    (if decide (path request = py "/") then
       match method request with
       | GET => index
       | POST => mret (mkResponse 405 ErrorPage)
       end
     else if decide (path request = py "/process") then
       match method request with
       | POST => process crew request
       | GET => mret (mkResponse 405 ErrorPage)
       end
     else mret (mkResponse 404 ErrorPage))
    [ (is_Exception, fun _ =>
         mret (mkResponse 500 ErrorPage)) ].

(** The server loop over the requests that arrive. *)
Fixpoint serve (crew : Crew.t) (requests : list Request) : M (list Response) :=
  match requests with
  | [] => mret []
  | request :: rest =>
      response ← dispatch crew request;
      responses ← serve crew rest;
      mret (response :: responses)
  end.

(** [app.run(debug=True)] *)
Definition app_run (crew : Crew.t) (requests : list Request) : M (list Response) :=
  bind_server;;
  serve crew requests.

(** The whole of [python app.py], against the requests that arrive. *)
Definition main (requests : list Request) : M (list Response) :=
  crew ← startup;
  app_run crew requests.
End App.

(** ** Predicates used in the statements *)

(** Every failure of the schema is a [ValidationError]. *)
Definition fails_validation {A} (r : exn + A) : Prop :=
  ∀ e, r = inl e → e = ValidationError.

(** [m] never changes the observation [f] of the state. *)
Definition preserves {A X} (f : State → X) (m : M A) : Prop :=
  ∀ s, f (m s).2 = f s.

(** The crew that [create_crew] builds once the three agents are found. *)
Definition crew_of (env : Env) (agents : list (pystr * Agent.t))
    (sql_dev data_analyst report_writer : Agent.t) : Crew.t :=
  let extract_data :=
    Task.mk (py "Extract the data required to answer the question: {query}.")
            (py "A list of data from the database that answers the question.")
            sql_dev None in
  let analyze_data :=
    Task.mk (py "Analyze the data provided and write a brief analysis for the question: {query}.")
            (py "A short, easy-to-understand text analyzing the provided data.")
            data_analyst (Some [extract_data]) in
  let write_report :=
    Task.mk (dedent env (py "Write an executive summary of the report from the analysis. The report must be less than 50 words and presented in markdown."))
            (py "A markdown report summarizing the analysis.")
            report_writer (Some [analyze_data]) in
  Crew.mk (dict_values agents) [extract_data; analyze_data; write_report]
          Process.sequential true.

(** From [s] to [s'] only kickoffs of [crew] were added. *)
Definition served_by (crew : Crew.t) (s s' : State) : Prop :=
  (∃ served, kickoffs s' = kickoffs s ++ served ∧ Forall (fun k => k.1 = crew) served)
  ∧ crews_built s' = crews_built s.

(** What a failed startup leaves behind: an exception, no bound server, no
    crew built, no kickoff. *)
Definition never_serves (env : Env) (requests : list Request) (s : State) : Prop :=
  ∃ e, (main env requests s).1 = inl e
       ∧ listening (main env requests s).2 = listening s
       ∧ crews_built (main env requests s).2 = crews_built s
       ∧ kickoffs (main env requests s).2 = kickoffs s.

(** ** A concrete run

    A configuration with the three agents the tasks need, a small frame, and
    libraries that all succeed; the examples below evaluate the program on
    it. *)

Definition sample_agent (n : string) (tool_names : list string) : yaml :=
  YMap (<[py "name" := YStr (py n)]>
        (<[py "role" := YStr (py "Analyst")]>
         (<[py "goal" := YStr (py "Answer the question")]>
          (<[py "backstory" := YStr (py "You know the finance table.")]>
           (<[py "tools" := YSeq ((fun t => YStr (py t)) <$> tool_names)]> ∅))))).

Definition sample_config : yaml :=
  YMap (<[py "agents" :=
            YSeq [ sample_agent "sql_dev"
                     ["list_tables"; "tables_schema"; "execute_sql"; "check_sql"]%string;
                   sample_agent "data_analyst" [];
                   sample_agent "report_writer" [] ]]> ∅).

Definition sample_frame : DataFrame :=
  mkDataFrame [py "Year"; py "Company "; py "Market Cap(in B USD)"; py "Debt/Equity Ratio"]
              [[py "2022"; py "AAPL"; py "2066.94"; py "2.37"]].

Definition sample_env_with (config : yaml) : Env :=
  {| environ := <[py "GROQ_API_KEY" := py "gsk_test"]> ∅;
     read_csv := fun _ => inr sample_frame;
     sqlite3_connect := fun _ => inr tt;
     to_sql := fun _ => inr tt;
     from_uri := fun _ => inr tt;
     safe_load := fun _ => inr config;
     dedent := fun s => s;
     exn_str := fun _ => py "error";
     crew_kickoff := fun _ _ _ => inr (py "**Summary**") |}.

Definition sample_env : Env := sample_env_with sample_config.

Definition initial_state : State := mkState [] None 0 [] false.

Definition sample_llm : LLM.t := LLM.mk (py "groq/llama-3.3-70b-versatile") (py "gsk_test").

Definition sample_crew : Crew.t :=
  Eval vm_compute in
    match (startup sample_env initial_state).1 with
    | inr crew => crew
    | inl _ => Crew.mk [] [] Process.sequential true
    end.

(** An entry with an empty [name] (and an empty [role]). *)
Definition blank_agent : yaml :=
  YMap (<[py "name" := YStr (py "")]>
        (<[py "role" := YStr (py "")]>
         (<[py "goal" := YStr (py "Answer the question")]>
          (<[py "backstory" := YStr (py "You know the finance table.")]> ∅)))).

(** A configuration whose only agent declares a tool the table lacks. *)
Definition lone_agent_config : yaml :=
  YMap (<[py "agents" := YSeq [sample_agent "helper" ["list_tables"; "web_search"]%string]]> ∅).

Definition lone_agent_cfg : CrewConfig.t :=
  Eval vm_compute in
    match validate_CrewConfig lone_agent_config with
    | inr cfg => cfg
    | inl _ => CrewConfig.mk []
    end.

(** A configuration with the three agents, two of which declare tools the
    table lacks, and what validation makes of it. *)
Definition mixed_tools_config : yaml :=
  YMap (<[py "agents" :=
            YSeq [ sample_agent "sql_dev" ["execute_sql"; "web_search"; "list_tables"]%string;
                   sample_agent "data_analyst" ["calculator"]%string;
                   sample_agent "report_writer" [] ]]> ∅).

Definition mixed_tools_cfg : CrewConfig.t :=
  Eval vm_compute in
    match validate_CrewConfig mixed_tools_config with
    | inr cfg => cfg
    | inl _ => CrewConfig.mk []
    end.

(** An entry that asks for delegation and for no verbosity. *)
Definition terse_agent : yaml :=
  YMap (<[py "name" := YStr (py "sql_dev")]>
        (<[py "role" := YStr (py "Analyst")]>
         (<[py "goal" := YStr (py "Answer the question")]>
          (<[py "backstory" := YStr (py "You know the finance table.")]>
           (<[py "allow_delegation" := YBool true]>
            (<[py "verbose" := YBool false]> ∅)))))).

Definition terse_conf : AgentConfig.t :=
  AgentConfig.mk (py "sql_dev") (py "Analyst") (py "Answer the question")
                 (py "You know the finance table.") [] true false.

Definition terse_config : yaml :=
  YMap (<[py "agents" :=
            YSeq [ terse_agent; sample_agent "data_analyst" [];
                   sample_agent "report_writer" [] ]]> ∅).

(** ** Further notions used in the statements *)

(** What the four replacements together do to one character of a stripped
    label. *)
Definition normalize_char (c : N) : pystr :=
  if (c =? 32) || (c =? 47) then py "_"
  else if (c =? 40) || (c =? 41) then []
  else [c].

(** The inputs with which a request makes [process] run the crew, if it
    does: a POST to /process whose first [query] value is not empty. *)
Definition kickoff_inputs (request : Request) : option (list (pystr * pystr)) :=
  match method request with
  | POST =>
      if decide (path request = py "/process") then
        match form_get (py "query") (form request) with
        | Some (c :: q) => Some [(py "query", c :: q)]
        | _ => None
        end
      else None
  | GET => None
  end.

(** The pipeline raises nothing but subclasses of [Exception]. *)
Definition kickoff_raises_Exceptions (env : Env) : Prop :=
  ∀ n crew inputs e, crew_kickoff env n crew inputs = inl e → is_Exception e = true.

(** The shared client that startup builds from the environment. *)
Definition llm_of (env : Env) : LLM.t :=
  LLM.mk (py "groq/llama-3.3-70b-versatile")
         (default [] (environ env !! py "GROQ_API_KEY")).

(** The frame that the database block writes for a frame read. *)
Definition normalized_frame (df : DataFrame) : DataFrame :=
  mkDataFrame (normalize_column <$> columns df) (rows df).

(** * Properties *)

(** ** Text operations *)

Lemma str_replace_char (a : N) (new s : pystr) :
  str_replace [a] new s = s ≫= (fun c => if a =? c then new else [c]).
Proof.
  unfold str_replace.
  induction s as [|c s IH]; [reflexivity|].
  cbn [replace_scan startswith length pred mbind list_bind].
  rewrite andb_true_r.
  destruct (a =? c); cbn [app]; rewrite ?IH; reflexivity.
Qed.

Lemma elem_of_str_replace_char (x a : N) (new s : pystr) :
  x ∈ str_replace [a] new s ↔ (x ∈ new ∧ a ∈ s) ∨ (x ∈ s ∧ x ≠ a).
Proof.
  rewrite str_replace_char, list_elem_of_bind. split.
  - intros (c & Hx & Hc). destruct (N.eqb_spec a c) as [->|Hne].
    + left. auto.
    + right. apply list_elem_of_singleton in Hx as ->. auto.
  - intros [[Hx Ha] | [Hx Hne]].
    + exists a. rewrite N.eqb_refl. auto.
    + exists x. split; [|done].
      destruct (N.eqb_spec a x); [congruence | apply list_elem_of_singleton; done].
Qed.

Lemma str_replace_char_absent (a : N) (new s : pystr) :
  a ∉ s → str_replace [a] new s = s.
Proof.
  rewrite str_replace_char.
  induction s as [|c s IH]; intros Ha; [reflexivity|].
  apply not_elem_of_cons in Ha as [Hne Ha].
  cbn [mbind list_bind].
  destruct (N.eqb_spec a c); [congruence|].
  cbn [app]. f_equal. apply IH, Ha.
Qed.

Lemma lstrip_split (s : pystr) :
  ∃ pre, s = pre ++ lstrip s ∧ Forall (fun c => is_space c = true) pre.
Proof.
  induction s as [|c s (pre & Heq & Hpre)].
  - exists []. split; [reflexivity | constructor].
  - cbn [lstrip]. destruct (is_space c) eqn:Hc.
    + exists (c :: pre). split; [cbn; congruence | constructor; done].
    + exists []. split; [reflexivity | constructor].
Qed.

Lemma lstrip_head (s : pystr) (c : N) :
  head (lstrip s) = Some c → is_space c = false.
Proof.
  induction s as [|d s IH]; cbn [lstrip]; [discriminate|].
  destruct (is_space d) eqn:Hd; [exact IH|].
  cbn. intros [= <-]. exact Hd.
Qed.

Lemma lstrip_id (s : pystr) :
  (∀ c, head s = Some c → is_space c = false) → lstrip s = s.
Proof.
  destruct s as [|d s]; [reflexivity|]. intros H. cbn [lstrip].
  rewrite (H d); reflexivity.
Qed.

Lemma rstrip_split (s : pystr) :
  ∃ suf, s = rstrip s ++ suf ∧ Forall (fun c => is_space c = true) suf.
Proof.
  unfold rstrip. destruct (lstrip_split (reverse s)) as (pre & Heq & Hpre).
  exists (reverse pre). split.
  - rewrite <- reverse_app, <- Heq, reverse_involutive. reflexivity.
  - apply Forall_reverse. exact Hpre.
Qed.

Lemma rstrip_last (s : pystr) (c : N) :
  last (rstrip s) = Some c → is_space c = false.
Proof.
  unfold rstrip. rewrite last_reverse. apply lstrip_head.
Qed.

Lemma rstrip_id (s : pystr) :
  (∀ c, last s = Some c → is_space c = false) → rstrip s = s.
Proof.
  intros H. unfold rstrip. rewrite lstrip_id.
  - apply reverse_involutive.
  - intros c Hc. apply H. rewrite <- (reverse_involutive s), last_reverse. exact Hc.
Qed.

Lemma rstrip_head (s : pystr) (c : N) :
  head (rstrip s) = Some c → head s = Some c.
Proof.
  destruct (rstrip_split s) as (suf & Heq & _). intros Hc.
  rewrite Heq. destruct (rstrip s); [discriminate | exact Hc].
Qed.

Lemma strip_split (s : pystr) :
  ∃ pre suf, s = pre ++ strip s ++ suf
    ∧ Forall (fun c => is_space c = true) pre
    ∧ Forall (fun c => is_space c = true) suf.
Proof.
  destruct (lstrip_split s) as (pre & Heq & Hpre).
  destruct (rstrip_split (lstrip s)) as (suf & Heq' & Hsuf).
  exists pre, suf. unfold strip. rewrite <- Heq'. auto.
Qed.

Lemma strip_head (s : pystr) (c : N) :
  head (strip s) = Some c → is_space c = false.
Proof. unfold strip. intros Hc. eapply lstrip_head, rstrip_head, Hc. Qed.

Lemma strip_last (s : pystr) (c : N) :
  last (strip s) = Some c → is_space c = false.
Proof. apply rstrip_last. Qed.

Lemma elem_of_strip (s : pystr) (c : N) : c ∈ strip s → c ∈ s.
Proof.
  destruct (strip_split s) as (pre & suf & Heq & _). intros Hc.
  rewrite Heq. set_solver.
Qed.

Lemma strip_no_space (s : pystr) :
  Forall (fun c => is_space c = false) s → strip s = s.
Proof.
  intros Hs. unfold strip. rewrite (lstrip_id s).
  - apply rstrip_id. intros c Hc. eapply (proj1 (Forall_forall _ _) Hs), last_Some_elem_of, Hc.
  - intros c Hc. eapply (proj1 (Forall_forall _ _) Hs), head_Some_elem_of, Hc.
Qed.

(** ** Column labels *)

Lemma elem_of_normalize_column (h : pystr) (c : N) :
  c ∈ normalize_column h →
  (c ∉ forbidden) ∧ (c = 95 ∨ c ∈ strip h).
Proof.
  unfold normalize_column.
  change (py "/") with [47]; change (py ")") with [41];
    change (py "(") with [40]; change (py " ") with [32];
    change (py "_") with [95]; change (py "") with (@nil N).
  rewrite !elem_of_str_replace_char.
  change forbidden with [32; 40; 41; 47].
  rewrite !not_elem_of_cons, !list_elem_of_singleton.
  intros H. split.
  - repeat split; try apply not_elem_of_nil; intros ->;
      repeat match goal with
             | H : _ ∨ _ |- _ => destruct H
             | H : _ ∧ _ |- _ => destruct H
             | H : _ ∈ [] |- _ => by apply not_elem_of_nil in H
             end; done.
  - repeat match goal with
           | H : _ ∨ _ |- _ => destruct H
           | H : _ ∧ _ |- _ => destruct H
           | H : _ ∈ [] |- _ => by apply not_elem_of_nil in H
           end; auto.
Qed.

Lemma normalize_column_clean (h : pystr) :
  Forall (fun c => c ∉ forbidden) (normalize_column h).
Proof. apply Forall_forall. intros c Hc. apply (elem_of_normalize_column h c Hc). Qed.

(** On a label without the four characters the replacements do nothing. *)
Lemma normalize_column_of_clean (x : pystr) :
  Forall (fun c => c ∉ forbidden) x → normalize_column x = strip x.
Proof.
  intros Hx. unfold normalize_column.
  assert (Hs : ∀ c, c ∈ forbidden → c ∉ strip x).
  { intros c Hc Hin. apply elem_of_strip in Hin.
    exact (proj1 (Forall_forall _ _) Hx c Hin Hc). }
  change (py "/") with [47]; change (py ")") with [41];
    change (py "(") with [40]; change (py " ") with [32].
  change forbidden with [32; 40; 41; 47] in Hs.
  rewrite (str_replace_char_absent 32) by (apply Hs; set_solver).
  rewrite (str_replace_char_absent 40) by (apply Hs; set_solver).
  rewrite (str_replace_char_absent 41) by (apply Hs; set_solver).
  rewrite (str_replace_char_absent 47) by (apply Hs; set_solver).
  reflexivity.
Qed.

Lemma renormalize_is_strip (h : pystr) :
  normalize_column (normalize_column h) = strip (normalize_column h).
Proof. apply normalize_column_of_clean, normalize_column_clean. Qed.

(** ** Running the monad *)

Ltac run :=
  cbv [mbind M_bind mret M_ret call raise exit logger_error store_table
       new_Crew bind_server try_except find_clause].

(** The result of the database block on the store: untouched, or the frame
    read from the CSV with every label normalised. *)
Lemma database_setup_store (env : Env) (s : State) :
  finance (database_setup env s).2 = finance s
  ∨ ∃ df, read_csv env (py "./Financial Statements.csv") = inr df
      ∧ finance (database_setup env s).2
        = Some (mkDataFrame (normalize_column <$> columns df) (rows df)).
Proof.
  unfold database_setup. run.
  destruct (read_csv env _) as [e|df].
  { left. destruct (is_FileNotFoundError e), (is_Exception e); reflexivity. }
  destruct (sqlite3_connect env _) as [e|[]].
  { left. destruct (is_FileNotFoundError e), (is_Exception e); reflexivity. }
  destruct (to_sql env _) as [e|[]].
  { left. destruct (is_FileNotFoundError e), (is_Exception e); reflexivity. }
  right. exists df. split; [reflexivity|].
  destruct (from_uri env _) as [e|[]]; [|reflexivity].
  destruct (is_FileNotFoundError e), (is_Exception e); reflexivity.
Qed.

Lemma normalize_column_chars (h : pystr) :
  normalize_column h = strip h ≫= normalize_char.
Proof.
  unfold normalize_column.
  change (py "/") with [47]; change (py ")") with [41];
    change (py "(") with [40]; change (py " ") with [32];
    change (py "_") with [95]; change (py "") with (@nil N).
  rewrite !str_replace_char.
  induction (strip h) as [|c s IH]; [reflexivity|].
  cbn [mbind list_bind]. rewrite !bind_app, IH. f_equal.
  unfold normalize_char. change (py "_") with [95].
  destruct (N.eqb_spec 32 c) as [<-|H32]; [reflexivity|].
  destruct (N.eqb_spec 40 c) as [<-|H40]; [reflexivity|].
  destruct (N.eqb_spec 41 c) as [<-|H41]; [reflexivity|].
  destruct (N.eqb_spec 47 c) as [<-|H47]; [reflexivity|].
  cbn [mbind list_bind app].
  rewrite (proj2 (N.eqb_neq 40 c) H40). cbn [mbind list_bind app].
  rewrite (proj2 (N.eqb_neq 41 c) H41). cbn [mbind list_bind app].
  rewrite (proj2 (N.eqb_neq 47 c) H47).
  rewrite (proj2 (N.eqb_neq c 32)), (proj2 (N.eqb_neq c 47)),
          (proj2 (N.eqb_neq c 40)), (proj2 (N.eqb_neq c 41)) by congruence.
  reflexivity.
Qed.

(** Once the CSV is read, finance.db opened and the table written, the store
    holds the frame read with every label normalised, whatever happens when
    the database is reopened. *)
Lemma database_setup_writes (env : Env) (s : State) (df : DataFrame) :
  read_csv env (py "./Financial Statements.csv") = inr df →
  sqlite3_connect env (py "finance.db") = inr tt →
  to_sql env (mkDataFrame (normalize_column <$> columns df) (rows df)) = inr tt →
  finance (database_setup env s).2
  = Some (mkDataFrame (normalize_column <$> columns df) (rows df)).
Proof.
  unfold database_setup. run. intros -> -> ->.
  destruct (from_uri env _) as [e|[]]; [|reflexivity].
  destruct (is_FileNotFoundError e), (is_Exception e); reflexivity.
Qed.

(** C4: when the CSV is read, finance.db is opened and the table is written,
    the table in the store is the frame read with every column label [h]
    replaced by [normalize_column h], rows untouched; and for every header
    [h] that name contains no space, no opening or closing parenthesis and
    no slash.  Leading and trailing whitespace is removed first: the name is
    the character-by-character image of [strip h], which is [h] without a
    whitespace prefix and a whitespace suffix and neither starts nor ends
    with whitespace. *)
Theorem stored_column_names_are_normalized (env : Env) (s : State) (df : DataFrame) :
  read_csv env (py "./Financial Statements.csv") = inr df →
  sqlite3_connect env (py "finance.db") = inr tt →
  to_sql env (mkDataFrame (normalize_column <$> columns df) (rows df)) = inr tt →
  finance (database_setup env s).2
  = Some (mkDataFrame (normalize_column <$> columns df) (rows df))
  ∧ Forall (fun name => Forall (fun c => c ∉ forbidden) name)
           (normalize_column <$> columns df)
  ∧ ∀ h,
      Forall (fun c => c ∉ forbidden) (normalize_column h)
      ∧ normalize_column h = strip h ≫= normalize_char
      ∧ ∃ pre suf, h = pre ++ strip h ++ suf
          ∧ Forall (fun c => is_space c = true) pre
          ∧ Forall (fun c => is_space c = true) suf
          ∧ (∀ c, head (strip h) = Some c → is_space c = false)
          ∧ (∀ c, last (strip h) = Some c → is_space c = false).
Proof.
  intros Hread Hconnect Hwrite.
  split; [apply (database_setup_writes env s df Hread Hconnect Hwrite)|].
  split.
  { apply Forall_fmap, Forall_forall. intros h _. apply normalize_column_clean. }
  intros h. split; [apply normalize_column_clean|].
  split; [apply normalize_column_chars|].
  destruct (strip_split h) as (pre & suf & Heq & Hpre & Hsuf).
  exists pre, suf.
  split; [exact Heq|]. split; [exact Hpre|]. split; [exact Hsuf|].
  split; [apply strip_head | apply strip_last].
Qed.

Lemma stored_column_names_are_normalized_witness :
  finance (database_setup sample_env (mkState [] (Some (mkDataFrame [py "old (x)"] [])) 0 [] false)).2
  = Some (mkDataFrame (normalize_column <$> columns sample_frame) (rows sample_frame)).
Proof.
  refine (proj1 (stored_column_names_are_normalized sample_env _ sample_frame _ _ _));
    reflexivity.
Defined.

Example stored_columns_sample :
  finance (database_setup sample_env initial_state).2
  = Some (mkDataFrame [py "Year"; py "Company"; py "Market_Capin_B_USD"; py "Debt_Equity_Ratio"]
                      (rows sample_frame)).
Proof. vm_compute. reflexivity. Qed.

(** C5, counterexample: normalising the header made of an opening
    parenthesis, a tab and the letter a gives tab-a; normalising that gives
    a. *)
Lemma normalize_column_not_idempotent :
  normalize_column (normalize_column (py "(" ++ [9] ++ py "a"))
  ≠ normalize_column (py "(" ++ [9] ++ py "a").
Proof. vm_compute. discriminate. Qed.

Lemma database_setup_rerun (env : Env) (s : State) :
  finance (database_setup env (database_setup env s).2).2
  = finance (database_setup env s).2.
Proof.
  unfold database_setup. run.
  destruct (read_csv env _) as [e|df].
  { destruct (is_FileNotFoundError e), (is_Exception e); reflexivity. }
  destruct (sqlite3_connect env _) as [e|[]].
  { destruct (is_FileNotFoundError e), (is_Exception e); reflexivity. }
  destruct (to_sql env _) as [e|[]].
  { destruct (is_FileNotFoundError e), (is_Exception e); reflexivity. }
  destruct (from_uri env _) as [e|[]]; [|reflexivity].
  destruct (is_FileNotFoundError e), (is_Exception e); reflexivity.
Qed.

Lemma normalize_column_no_space (h : pystr) :
  Forall (fun c => is_space c = true → c = 32) h →
  Forall (fun c => is_space c = false) (normalize_column h).
Proof.
  intros Hh. apply Forall_forall. intros c Hc.
  apply elem_of_normalize_column in Hc as [Hf [-> | Hs]]; [reflexivity|].
  destruct (is_space c) eqn:Hsp; [|reflexivity].
  apply elem_of_strip in Hs.
  rewrite (proj1 (Forall_forall _ _) Hh c Hs Hsp) in Hf.
  exfalso. apply Hf. change forbidden with [32; 40; 41; 47]. set_solver.
Qed.

(** C5, as amended: normalisation is a function of the header, and applying
    it to an already normalised name only strips that name.  It is
    idempotent on every header whose whitespace characters are all plain
    spaces.  Running the load again on the same files leaves in the store
    the table the first run left there. *)
Theorem normalize_column_twice_strips (h : pystr) (env : Env) (s : State) :
  normalize_column (normalize_column h) = strip (normalize_column h)
  ∧ (Forall (fun c => is_space c = true → c = 32) h →
     normalize_column (normalize_column h) = normalize_column h)
  ∧ finance (database_setup env (database_setup env s).2).2
    = finance (database_setup env s).2.
Proof.
  split; [apply renormalize_is_strip|].
  split; [|apply database_setup_rerun].
  intros Hh. rewrite renormalize_is_strip.
  apply strip_no_space, normalize_column_no_space, Hh.
Qed.

Lemma normalize_column_twice_strips_witness :
  normalize_column (normalize_column (py " Market Cap(in B USD) "))
  = normalize_column (py " Market Cap(in B USD) ").
Proof.
  apply (proj1 (proj2 (normalize_column_twice_strips
                         (py " Market Cap(in B USD) ") sample_env initial_state))).
  apply Forall_forall. intros c Hc Hsp.
  vm_compute in Hc.
  repeat (apply elem_of_cons in Hc as [-> | Hc]; [first [reflexivity | discriminate Hsp]|]).
  by apply not_elem_of_nil in Hc.
Defined.

(** ** The request handler *)

Lemma dict_get_None {V} (k : pystr) (d : list (pystr * V)) :
  dict_get k d = None ↔ k ∉ d.*1.
Proof.
  induction d as [|[k' v] d IH]; cbn [dict_get fmap list_fmap].
  - split; [intros _; apply not_elem_of_nil | done].
  - rewrite not_elem_of_cons. destruct (decide (k' = k)) as [->|Hne].
    + split; [discriminate | intros [? _]; done].
    + rewrite IH. split; [intros ?; split; [intros ->; done | done] | intros [_ ?]; done].
Qed.

Lemma process_falsy_query (env : Env) (crew : Crew.t) (request : Request) (s : State) :
  truthy (form_get (py "query") (form request)) = false →
  process env crew request s
  = (inr (mkResponse 400 (Text (py "Please provide a query."))), s).
Proof. intros H. unfold process. rewrite H. reflexivity. Qed.

Lemma dispatch_process (env : Env) (crew : Crew.t) (f : list (pystr * pystr))
    (s : State) (r : Response) :
  process env crew (mkRequest POST (py "/process") f) s = (inr r, s) →
  dispatch env crew (mkRequest POST (py "/process") f) s = (inr r, s).
Proof.
  intros H. unfold dispatch, try_except. cbn [path method].
  destruct (decide (py "/process" = py "/")) as [Heq|_]; [discriminate Heq|].
  destruct (decide (py "/process" = py "/process")) as [_|Hne]; [|done].
  rewrite H. reflexivity.
Qed.

(** C1: a POST to /process whose form has no [query] field is answered with
    status 400 and the literal text, by the view and so by the dispatcher,
    and the state is the one before the request: no kickoff is recorded. *)
Theorem process_without_query_field (env : Env) (crew : Crew.t)
    (f : list (pystr * pystr)) (s : State) :
  py "query" ∉ f.*1 →
  let request := mkRequest POST (py "/process") f in
  let answer := (inr (mkResponse 400 (Text (py "Please provide a query."))), s) in
  process env crew request s = answer
  ∧ dispatch env crew request s = answer
  ∧ kickoffs (dispatch env crew request s).2 = kickoffs s.
Proof.
  intros Hq request answer.
  assert (Hp : process env crew request s = answer).
  { apply process_falsy_query. unfold form_get. cbn [form request].
    rewrite (proj2 (dict_get_None _ _) Hq). reflexivity. }
  assert (Hd : dispatch env crew request s = answer) by (apply dispatch_process, Hp).
  rewrite Hd. auto.
Qed.

Lemma process_without_query_field_witness :
  dispatch sample_env (Crew.mk [] [] Process.sequential true)
           (mkRequest POST (py "/process") [(py "question", py "Revenue?")])
           initial_state
  = (inr (mkResponse 400 (Text (py "Please provide a query."))), initial_state).
Proof.
  refine (proj1 (proj2 (process_without_query_field sample_env
                          (Crew.mk [] [] Process.sequential true)
                          [(py "question", py "Revenue?")] initial_state _))).
  cbn [fmap list_fmap fst]. rewrite not_elem_of_cons.
  split; [vm_compute; discriminate | apply not_elem_of_nil].
Defined.

(** C10: a POST to /process whose [query] field is present and empty gets
    the same answer as one without the field, and no kickoff is recorded:
    the guard tests the value's truthiness. *)
Theorem process_with_empty_query (env : Env) (crew : Crew.t)
    (f : list (pystr * pystr)) (s : State) :
  form_get (py "query") f = Some [] →
  let request := mkRequest POST (py "/process") f in
  let answer := (inr (mkResponse 400 (Text (py "Please provide a query."))), s) in
  process env crew request s = answer
  ∧ dispatch env crew request s = answer
  ∧ kickoffs (dispatch env crew request s).2 = kickoffs s
  ∧ ∀ f', py "query" ∉ f'.*1 →
      dispatch env crew (mkRequest POST (py "/process") f') s
      = dispatch env crew request s.
Proof.
  intros Hq request answer.
  assert (Hp : process env crew request s = answer).
  { apply process_falsy_query. cbn [form request]. rewrite Hq. reflexivity. }
  assert (Hd : dispatch env crew request s = answer) by (apply dispatch_process, Hp).
  rewrite Hd. repeat split; auto.
  intros f' Hf'. apply dispatch_process, process_falsy_query.
  unfold form_get. cbn [form]. rewrite (proj2 (dict_get_None _ _) Hf'). reflexivity.
Qed.

Lemma process_with_empty_query_witness :
  dispatch sample_env (Crew.mk [] [] Process.sequential true)
           (mkRequest POST (py "/process") [(py "query", py "")])
           initial_state
  = (inr (mkResponse 400 (Text (py "Please provide a query."))), initial_state).
Proof.
  refine (proj1 (proj2 (process_with_empty_query sample_env
                          (Crew.mk [] [] Process.sequential true)
                          [(py "query", py "")] initial_state _))).
  reflexivity.
Defined.

(** A query with text does reach the crew. *)
Example process_with_query_sample :
  dispatch sample_env (Crew.mk [] [] Process.sequential true)
           (mkRequest POST (py "/process") [(py "query", py "Revenue?")])
           initial_state
  = (inr (mkResponse 200 (Rendered (py "result.html")
             [(py "query", py "Revenue?"); (py "result", py "**Summary**")])),
     mkState [] None 0
       [(Crew.mk [] [] Process.sequential true, [(py "query", py "Revenue?")])] false).
Proof. vm_compute. reflexivity. Qed.

(** ** Configuration validation *)

Lemma bind_inr {A B} (x : exn + A) (f : A → exn + B) (b : B) :
  x ≫= f = inr b → ∃ a, x = inr a ∧ f a = inr b.
Proof. destruct x as [e|a]; [discriminate | eauto]. Qed.

Lemma required_str_inr (o : option yaml) (s : pystr) :
  required validate_str o = inr s → o = Some (YStr s).
Proof. destruct o as [[]|]; cbn; congruence. Qed.

Lemma fails_validation_bind {A B} (x : exn + A) (f : A → exn + B) :
  fails_validation x → (∀ a, fails_validation (f a)) → fails_validation (x ≫= f).
Proof.
  intros Hx Hf. destruct x as [e|a]; [|apply Hf].
  intros e' He'. cbv [mbind exn_bind] in He'. injection He' as <-.
  apply Hx. reflexivity.
Qed.

Lemma fails_validation_inr {A} (a : A) : fails_validation (inr a : exn + A).
Proof. intros e. discriminate. Qed.

Lemma fails_validation_str (v : yaml) : fails_validation (validate_str v).
Proof. intros e. destruct v; cbn; congruence. Qed.

Lemma fails_validation_bool (v : yaml) : fails_validation (validate_bool v).
Proof.
  intros e. destruct v as [| |[|[]|]| | |]; cbn [validate_bool]; try congruence.
  repeat case_bool_decide; congruence.
Qed.

Lemma fails_validation_items {A} (f : yaml → exn + A) (l : list yaml) :
  (∀ v, fails_validation (f v)) → fails_validation (validate_items f l).
Proof.
  intros Hf. induction l as [|v l IH]; cbn [validate_items]; [apply fails_validation_inr|].
  intros e. destruct (f v) as [e'|a] eqn:Hv.
  - intros [= <-]. exact (Hf v e' Hv).
  - destruct (validate_items f l) as [e'|r]; [|discriminate].
    intros [= <-]. apply IH. reflexivity.
Qed.

Lemma fails_validation_list {A} (f : yaml → exn + A) (v : yaml) :
  (∀ v, fails_validation (f v)) → fails_validation (validate_list f v).
Proof.
  intros Hf. destruct v; cbn [validate_list];
    try (intros e; congruence). apply fails_validation_items, Hf.
Qed.

Lemma fails_validation_required {A} (f : yaml → exn + A) (o : option yaml) :
  (∀ v, fails_validation (f v)) → fails_validation (required f o).
Proof. intros Hf. destruct o; cbn; [apply Hf | intros e; congruence]. Qed.

Lemma fails_validation_optional {A} (f : yaml → exn + A) (d : A) (o : option yaml) :
  (∀ v, fails_validation (f v)) → fails_validation (optional f d o).
Proof. intros Hf. destruct o; cbn; [apply Hf | apply fails_validation_inr]. Qed.

Create HintDb validation.
#[local] Hint Resolve fails_validation_bind fails_validation_inr fails_validation_str
  fails_validation_bool fails_validation_list fails_validation_required
  fails_validation_optional : validation.

Lemma fails_validation_AgentConfig (v : yaml) : fails_validation (validate_AgentConfig v).
Proof.
  destruct v; cbn [validate_AgentConfig]; try (intros e; congruence).
  repeat (apply fails_validation_bind; [auto with validation | intros ?]).
  apply fails_validation_inr.
Qed.

Lemma validate_items_rejects {A} (f : yaml → exn + A) (l : list yaml) (v : yaml) (e : exn) :
  v ∈ l → f v = inl e → ∃ e', validate_items f l = inl e'.
Proof.
  intros Hv Hf. induction l as [|w l IH]; [by apply not_elem_of_nil in Hv|].
  cbn [validate_items]. apply elem_of_cons in Hv as [<- | Hv].
  - rewrite Hf. eauto.
  - destruct (f w); [eauto|]. destruct (IH Hv) as [e' ->]. eauto.
Qed.

Lemma validate_CrewConfig_is_Exception (y : yaml) (e : exn) :
  validate_CrewConfig y = inl e → is_Exception e = true.
Proof.
  destruct y; cbn [validate_CrewConfig]; try (intros [= <-]; reflexivity).
  intros He.
  assert (e = ValidationError) as ->; [|reflexivity].
  revert e He. apply fails_validation_bind; [|intros; apply fails_validation_inr].
  apply fails_validation_required. intros v.
  apply fails_validation_list, fails_validation_AgentConfig.
Qed.

(** [load_config] returns the validated configuration and touches nothing. *)
Lemma load_config_ok (env : Env) (path : pystr) (s : State) (y : yaml) (cfg : CrewConfig.t) :
  safe_load env path = inr y → validate_CrewConfig y = inr cfg →
  load_config env path s = (inr cfg, s).
Proof. intros Hy Hc. unfold load_config. run. rewrite Hy, Hc. reflexivity. Qed.

(** [load_config] exits when the file cannot be loaded or is not valid. *)
Lemma load_config_exits (env : Env) (path : pystr) (s : State) :
  (∃ e, safe_load env path = inl e ∧ is_Exception e = true)
  ∨ (∃ y e, safe_load env path = inr y ∧ validate_CrewConfig y = inl e) →
  ∃ msg, load_config env path s
         = (inl SystemExit,
            mkState (log s ++ [msg]) (finance s) (crews_built s) (kickoffs s) (listening s)).
Proof.
  unfold load_config. run.
  intros [(e & -> & He) | (y & e & -> & Hv)].
  - rewrite He. destruct (is_FileNotFoundError e); eauto.
  - rewrite Hv. rewrite (validate_CrewConfig_is_Exception y e Hv).
    destruct (is_FileNotFoundError e); eauto.
Qed.

(** C2, counterexample: an entry whose [name] and [role] are the empty text
    passes validation, alone and inside a configuration file. *)
Lemma empty_text_is_accepted :
  validate_AgentConfig blank_agent
  = inr (AgentConfig.mk (py "") (py "") (py "Answer the question")
           (py "You know the finance table.") [] false true)
  ∧ (load_config (sample_env_with (YMap (<[py "agents" := YSeq [blank_agent]]> ∅)))
       (py "config.yaml") initial_state).1
    = inr (CrewConfig.mk
             [AgentConfig.mk (py "") (py "") (py "Answer the question")
                (py "You know the finance table.") [] false true]).
Proof. split; vm_compute; reflexivity. Qed.

(** C2, as amended: validation accepts an agent entry only if it is a
    mapping in which [name], [role], [goal] and [backstory] are present as
    text, the empty text included, and these are the fields of the
    descriptor.  An entry that lacks one of the four fails validation, and a
    configuration file listing an entry that fails validation makes
    [load_config] log and exit. *)
Theorem agent_entry_needs_four_texts (v : yaml) :
  (∀ a, validate_AgentConfig v = inr a →
     ∃ m, v = YMap m
       ∧ m !! py "name" = Some (YStr (AgentConfig.name a))
       ∧ m !! py "role" = Some (YStr (AgentConfig.role a))
       ∧ m !! py "goal" = Some (YStr (AgentConfig.goal a))
       ∧ m !! py "backstory" = Some (YStr (AgentConfig.backstory a)))
  ∧ (∀ m k, v = YMap m →
       k ∈ [py "name"; py "role"; py "goal"; py "backstory"] →
       m !! k = None →
       validate_AgentConfig v = inl ValidationError)
  ∧ (∀ env path s top items e,
       safe_load env path = inr (YMap top) →
       top !! py "agents" = Some (YSeq items) →
       v ∈ items →
       validate_AgentConfig v = inl e →
       ∃ msg, load_config env path s
              = (inl SystemExit,
                 mkState (log s ++ [msg]) (finance s) (crews_built s)
                         (kickoffs s) (listening s))).
Proof.
  split; [|split].
  - intros a Ha. destruct v; try discriminate Ha. cbn [validate_AgentConfig] in Ha.
    apply bind_inr in Ha as (n & Hn & Ha). apply required_str_inr in Hn.
    apply bind_inr in Ha as (r & Hr & Ha). apply required_str_inr in Hr.
    apply bind_inr in Ha as (g & Hg & Ha). apply required_str_inr in Hg.
    apply bind_inr in Ha as (b & Hb & Ha). apply required_str_inr in Hb.
    apply bind_inr in Ha as (t & _ & Ha).
    apply bind_inr in Ha as (d & _ & Ha).
    apply bind_inr in Ha as (vb & _ & Ha).
    injection Ha as <-. eauto 10.
  - intros m k -> Hk Hnone.
    destruct (validate_AgentConfig (YMap m)) as [e|a] eqn:Hv.
    { f_equal. exact (fails_validation_AgentConfig _ e Hv). }
    exfalso. cbn [validate_AgentConfig] in Hv.
    apply bind_inr in Hv as (n & Hn & Hv). apply required_str_inr in Hn.
    apply bind_inr in Hv as (r & Hr & Hv). apply required_str_inr in Hr.
    apply bind_inr in Hv as (g & Hg & Hv). apply required_str_inr in Hg.
    apply bind_inr in Hv as (b & Hb & Hv). apply required_str_inr in Hb.
    repeat (apply elem_of_cons in Hk as [-> | Hk]; [congruence|]).
    by apply not_elem_of_nil in Hk.
  - intros env path s top items e Hy Htop Hv He.
    apply load_config_exits. right.
    destruct (validate_items_rejects validate_AgentConfig items v e Hv He) as [e' He'].
    exists (YMap top), e'. split; [exact Hy|].
    cbn [validate_CrewConfig]. rewrite Htop. cbn [required validate_list].
    rewrite He'. reflexivity.
Qed.

Lemma agent_entry_needs_four_texts_witness :
  ∃ msg,
    load_config
      (sample_env_with
         (YMap (<[py "agents" := YSeq [YMap (<[py "name" := YStr (py "sql_dev")]> ∅)]]> ∅)))
      (py "config.yaml") initial_state
    = (inl SystemExit, mkState [msg] None 0 [] false).
Proof.
  refine (proj2 (proj2 (agent_entry_needs_four_texts
                          (YMap (<[py "name" := YStr (py "sql_dev")]> ∅))))
            (sample_env_with _) (py "config.yaml") initial_state
            (<[py "agents" := YSeq [YMap (<[py "name" := YStr (py "sql_dev")]> ∅)]]> ∅)
            [YMap (<[py "name" := YStr (py "sql_dev")]> ∅)] ValidationError _ _ _ _).
  - reflexivity.
  - vm_compute. reflexivity.
  - apply list_elem_of_singleton. reflexivity.
  - vm_compute. reflexivity.
Defined.

(** ** What a computation leaves alone *)

Section Preserves.
Context {X : Type} (f : State → X).

Lemma preserves_ret {A} (a : A) : preserves f (mret a).
Proof. intros s. reflexivity. Qed.

Lemma preserves_raise {A} (e : exn) : preserves f (raise e : M A).
Proof. intros s. reflexivity. Qed.

Lemma preserves_call {A} (r : exn + A) : preserves f (call r).
Proof. intros s. reflexivity. Qed.

Lemma preserves_bind {A B} (m : M A) (k : A → M B) :
  preserves f m → (∀ a, preserves f (k a)) → preserves f (m ≫= k).
Proof.
  intros Hm Hk s. cbv [mbind M_bind]. specialize (Hm s).
  destruct (m s) as [[e|a] s1]; cbn [snd] in *; [exact Hm|].
  rewrite (Hk a s1). exact Hm.
Qed.

Lemma preserves_try_except {A} (body : M A) clauses :
  preserves f body →
  Forall (fun clause => ∀ e, preserves f (clause.2 e)) clauses →
  preserves f (try_except body clauses).
Proof.
  intros Hb Hc s. unfold try_except. specialize (Hb s).
  destruct (body s) as [[e|a] s1]; cbn [snd] in *; [|exact Hb].
  induction Hc as [|[test handler] rest Hh _ IH]; cbn [find_clause]; [exact Hb|].
  destruct (test e); [|exact IH].
  specialize (Hh e s1). cbn [snd] in Hh. rewrite Hh. exact Hb.
Qed.
End Preserves.

Create HintDb frame.
#[local] Hint Resolve preserves_ret preserves_raise preserves_call : frame.

(** Splits a computation along its binds, handlers and branches; what is
    left are the primitive updates of the state. *)
Ltac frame :=
  repeat first
    [ apply preserves_ret | apply preserves_raise | apply preserves_call
    | apply preserves_bind; [|intros ?]
    | apply preserves_try_except
    | match goal with |- Forall _ [] => constructor end
    | match goal with |- Forall _ (_ :: _) => constructor; [intros ?; cbn [snd]|] end
    | match goal with |- preserves _ (if ?b then _ else _) => destruct b end
    | match goal with |- preserves _ (match ?x with _ => _ end) => destruct x end
    | (intros ?; reflexivity) ].

Lemma load_config_frame {X} (f : State → X) (env : Env) (path : pystr) :
  (∀ s msg, f (logger_error msg s).2 = f s) →
  preserves f (load_config env path).
Proof. intros Hlog. unfold load_config, exit. frame; intros s; apply Hlog. Qed.

Lemma database_setup_frame {X} (f : State → X) (env : Env) :
  (∀ s msg, f (logger_error msg s).2 = f s) →
  (∀ s df, f (store_table df s).2 = f s) →
  preserves f (database_setup env).
Proof.
  intros Hlog Hstore. unfold database_setup, exit.
  frame; intros s; first [apply Hlog | apply Hstore].
Qed.

Lemma create_crew_frame {X} (f : State → X) (env : Env) (llm : LLM.t) :
  (∀ s msg, f (logger_error msg s).2 = f s) →
  (∀ s c, f (new_Crew c s).2 = f s) →
  preserves f (create_crew env llm).
Proof.
  intros Hlog Hnew. unfold create_crew.
  apply preserves_bind; [apply load_config_frame, Hlog | intros cfg].
  frame. intros s. apply Hnew.
Qed.

Lemma startup_frame {X} (f : State → X) (env : Env) :
  (∀ s msg, f (logger_error msg s).2 = f s) →
  (∀ s df, f (store_table df s).2 = f s) →
  (∀ s c, f (new_Crew c s).2 = f s) →
  preserves f (startup env).
Proof.
  intros Hlog Hstore Hnew. unfold startup.
  destruct (negb _); [apply preserves_raise|].
  apply preserves_bind; [apply database_setup_frame; assumption | intros _].
  apply create_crew_frame; assumption.
Qed.

(** Startup neither binds the server nor runs the crew. *)
Lemma startup_listening (env : Env) (s : State) :
  listening (startup env s).2 = listening s.
Proof. apply (startup_frame listening); reflexivity. Qed.

Lemma startup_kickoffs (env : Env) (s : State) :
  kickoffs (startup env s).2 = kickoffs s.
Proof. apply (startup_frame kickoffs); reflexivity. Qed.

(** When startup raises, [app.run] is never reached. *)
Lemma main_startup_raises (env : Env) (requests : list Request) (s : State) (e : exn) :
  (startup env s).1 = inl e →
  main env requests s = (inl e, (startup env s).2).
Proof.
  intros He. unfold main. cbv [mbind M_bind].
  destruct (startup env s) as [[e'|crew] s1]; cbn [fst snd] in *; congruence.
Qed.

Lemma main_startup_returns (env : Env) (requests : list Request) (s s1 : State)
    (crew : Crew.t) :
  startup env s = (inr crew, s1) →
  main env requests s = app_run env crew requests s1.
Proof. intros Hs. unfold main. cbv [mbind M_bind]. rewrite Hs. reflexivity. Qed.

(** ** Dictionaries *)

(** Membership and non-membership in a list that is written out. *)
Ltac in_list :=
  repeat first [apply list_elem_of_here | apply list_elem_of_further].

Ltac not_in_list :=
  rewrite ?not_elem_of_cons; repeat split;
  try (let H := fresh in intros H; vm_compute in H; discriminate H);
  apply not_elem_of_nil.

Lemma dict_get_set_eq {V} (k : pystr) (v : V) (d : list (pystr * V)) :
  dict_get k (dict_set k v d) = Some v.
Proof.
  induction d as [|[k' v'] d IH]; cbn [dict_set dict_get].
  - rewrite decide_True; done.
  - destruct (decide (k' = k)) as [->|Hne]; cbn [dict_get].
    + rewrite decide_True; done.
    + rewrite decide_False; done.
Qed.

Lemma dict_get_set_ne {V} (k k' : pystr) (v : V) (d : list (pystr * V)) :
  k ≠ k' → dict_get k' (dict_set k v d) = dict_get k' d.
Proof.
  intros Hne. induction d as [|[k0 v0] d IH]; cbn [dict_set dict_get].
  - rewrite decide_False; done.
  - destruct (decide (k0 = k)) as [->|Hne0]; cbn [dict_get].
    + rewrite !decide_False; done.
    + destruct (decide (k0 = k')); [reflexivity | exact IH].
Qed.

Lemma dict_get_values {V} (k : pystr) (v : V) (d : list (pystr * V)) :
  dict_get k d = Some v → v ∈ dict_values d.
Proof.
  unfold dict_values. induction d as [|[k' v'] d IH]; cbn [dict_get fmap list_fmap snd];
    [discriminate|].
  destruct (decide (k' = k)).
  - intros [= ->]. apply list_elem_of_here.
  - intros H. apply list_elem_of_further, IH, H.
Qed.

(** ** Tool resolution *)

Lemma tool_mapping_lookup (n : pystr) (t : Tool) :
  tool_mapping !! n = Some t ↔ tool_name t = n.
Proof.
  split.
  - unfold tool_mapping. intros H.
    repeat (rewrite lookup_insert in H; case_decide;
            [subst n; injection H as <-; reflexivity|]).
    rewrite lookup_empty in H. discriminate.
  - intros <-. destruct t; vm_compute; reflexivity.
Qed.

(** The table has exactly the four names of the decorators. *)
Lemma tool_mapping_names (n : pystr) :
  is_Some (tool_mapping !! n)
  ↔ n ∈ [py "list_tables"; py "tables_schema"; py "execute_sql"; py "check_sql"].
Proof.
  split.
  - intros [t Ht]. apply tool_mapping_lookup in Ht as <-.
    destruct t; cbn [tool_name]; in_list.
  - intros Hn.
    repeat (apply elem_of_cons in Hn as [-> | Hn]; [vm_compute; eauto|]).
    by apply not_elem_of_nil in Hn.
Qed.

(** The tools an agent gets are those of its declared names that the table
    knows, in the declared order. *)
Lemma agent_tools_names (agent_conf : AgentConfig.t) :
  tool_name <$> agent_tools agent_conf
  = filter (fun n => is_Some (tool_mapping !! n)) (AgentConfig.tools agent_conf).
Proof.
  unfold agent_tools. induction (AgentConfig.tools agent_conf) as [|n l IH]; [reflexivity|].
  cbn [mbind list_bind]. rewrite fmap_app, IH, filter_cons.
  destruct (tool_mapping !! n) as [t|] eqn:Hn.
  - rewrite decide_True by eauto. apply tool_mapping_lookup in Hn as <-. reflexivity.
  - rewrite decide_False by (intros [? ?]; discriminate). reflexivity.
Qed.

(** ** The agents dictionary *)

Section Agents.
Context (env : Env) (llm : LLM.t).

Let add (agents : list (pystr * Agent.t)) (agent_conf : AgentConfig.t) :=
  dict_set (AgentConfig.name agent_conf) (new_Agent env llm agent_conf) agents.

Lemma agents_loop_absent (l : list AgentConfig.t) d (n : pystr) :
  n ∉ AgentConfig.name <$> l → dict_get n (foldl add d l) = dict_get n d.
Proof.
  revert d. induction l as [|c l IH]; intros d Hn; [reflexivity|].
  cbn [fmap list_fmap] in Hn. apply not_elem_of_cons in Hn as [Hne Hn].
  cbn [foldl]. rewrite IH by exact Hn. apply dict_get_set_ne. congruence.
Qed.

Lemma agents_loop_present (l : list AgentConfig.t) d (n : pystr) :
  n ∈ AgentConfig.name <$> l →
  ∃ c, c ∈ l ∧ AgentConfig.name c = n
       ∧ dict_get n (foldl add d l) = Some (new_Agent env llm c).
Proof.
  revert d. induction l as [|c l IH]; intros d Hn; [by apply not_elem_of_nil in Hn|].
  cbn [foldl]. destruct (decide (n ∈ AgentConfig.name <$> l)) as [Hin|Hout].
  - destruct (IH (add d c) Hin) as (c' & Hc' & Hname & Hget).
    exists c'. split; [by apply list_elem_of_further | auto].
  - cbn [fmap list_fmap] in Hn. apply elem_of_cons in Hn as [-> | Hn]; [|done].
    exists c. split; [apply list_elem_of_here|]. split; [reflexivity|].
    rewrite agents_loop_absent by exact Hout. apply dict_get_set_eq.
Qed.

Lemma agents_loop_present_unique (l : list AgentConfig.t) d (c : AgentConfig.t) :
  NoDup (AgentConfig.name <$> l) → c ∈ l →
  dict_get (AgentConfig.name c) (foldl add d l) = Some (new_Agent env llm c).
Proof.
  revert d. induction l as [|c0 l IH]; intros d Hnd Hc; [by apply not_elem_of_nil in Hc|].
  cbn [fmap list_fmap] in Hnd. apply NoDup_cons in Hnd as [Hfresh Hnd].
  cbn [foldl]. apply elem_of_cons in Hc as [-> | Hc].
  - rewrite agents_loop_absent by exact Hfresh. apply dict_get_set_eq.
  - apply IH; assumption.
Qed.

Lemma create_agents_absent (cfg : CrewConfig.t) (n : pystr) :
  n ∉ AgentConfig.name <$> CrewConfig.agents cfg →
  dict_get n (create_agents env llm cfg) = None.
Proof. intros Hn. unfold create_agents. rewrite agents_loop_absent by exact Hn. reflexivity. Qed.

Lemma create_agents_present (cfg : CrewConfig.t) (n : pystr) :
  n ∈ AgentConfig.name <$> CrewConfig.agents cfg →
  ∃ c, c ∈ CrewConfig.agents cfg ∧ AgentConfig.name c = n
       ∧ dict_get n (create_agents env llm cfg) = Some (new_Agent env llm c).
Proof. apply agents_loop_present. Qed.

Lemma create_agents_unique (cfg : CrewConfig.t) (c : AgentConfig.t) :
  NoDup (AgentConfig.name <$> CrewConfig.agents cfg) → c ∈ CrewConfig.agents cfg →
  dict_get (AgentConfig.name c) (create_agents env llm cfg) = Some (new_Agent env llm c).
Proof. apply agents_loop_present_unique. Qed.
End Agents.

(** ** Crew assembly *)

Lemma load_config_inr (env : Env) (path : pystr) (s s1 : State) (cfg : CrewConfig.t) :
  load_config env path s = (inr cfg, s1) →
  s1 = s ∧ ∃ y, safe_load env path = inr y ∧ validate_CrewConfig y = inr cfg.
Proof.
  unfold load_config. run.
  destruct (safe_load env path) as [e|y].
  { destruct (is_FileNotFoundError e), (is_Exception e); discriminate. }
  destruct (validate_CrewConfig y) as [e|cfg'] eqn:Hv.
  { destruct (is_FileNotFoundError e), (is_Exception e); discriminate. }
  intros [= <- <-]. eauto.
Qed.

Lemma create_crew_loaded (env : Env) (llm : LLM.t) (s : State) (y : yaml) (cfg : CrewConfig.t) :
  safe_load env (py "config.yaml") = inr y → validate_CrewConfig y = inr cfg →
  let agents := create_agents env llm cfg in
  create_crew env llm s
  = match dict_get (py "sql_dev") agents with
    | None => (inl (KeyError (py "sql_dev")), s)
    | Some sql_dev =>
        match dict_get (py "data_analyst") agents with
        | None => (inl (KeyError (py "data_analyst")), s)
        | Some data_analyst =>
            match dict_get (py "report_writer") agents with
            | None => (inl (KeyError (py "report_writer")), s)
            | Some report_writer =>
                new_Crew (crew_of env agents sql_dev data_analyst report_writer) s
            end
        end
    end.
Proof.
  intros Hy Hc agents. unfold create_crew. cbv [mbind M_bind].
  rewrite (load_config_ok env _ s y cfg Hy Hc). fold agents.
  unfold call, dict_getitem.
  destruct (dict_get (py "sql_dev") agents); [|reflexivity].
  destruct (dict_get (py "data_analyst") agents); [|reflexivity].
  destruct (dict_get (py "report_writer") agents); reflexivity.
Qed.

Lemma create_crew_inr (env : Env) (llm : LLM.t) (s s' : State) (crew : Crew.t) :
  create_crew env llm s = (inr crew, s') →
  ∃ cfg sql_dev data_analyst report_writer,
    crew = crew_of env (create_agents env llm cfg) sql_dev data_analyst report_writer
    ∧ crews_built s' = S (crews_built s).
Proof.
  intros H.
  destruct (load_config env (py "config.yaml") s) as [[e|cfg] s1] eqn:Hl.
  { unfold create_crew in H. cbv [mbind M_bind] in H. rewrite Hl in H. discriminate. }
  apply load_config_inr in Hl as (-> & y & Hy & Hc).
  rewrite (create_crew_loaded env llm s y cfg Hy Hc) in H. cbv zeta in H.
  destruct (dict_get (py "sql_dev") _) as [a1|]; [|discriminate].
  destruct (dict_get (py "data_analyst") _) as [a2|]; [|discriminate].
  destruct (dict_get (py "report_writer") _) as [a3|]; [|discriminate].
  injection H as <- <-. exists cfg, a1, a2, a3. split; reflexivity.
Qed.

(** C3: evaluation at a configuration whose [sql_dev] entry validates with
    [allow_delegation = True] and [verbose = False]: the crew assembled from
    it holds, for that entry, an agent with [allow_delegation = True] and
    [verbose = True].  For every descriptor the agent takes the delegation
    flag of the descriptor, and [verbose = True] whatever the descriptor
    says. *)
Theorem agent_verbose_is_hard_coded :
  validate_AgentConfig terse_agent = inr terse_conf
  ∧ AgentConfig.verbose terse_conf = false
  ∧ (∃ crew,
       create_crew (sample_env_with terse_config) sample_llm initial_state
       = new_Crew crew initial_state
       ∧ head (Crew.agents crew)
         = Some (new_Agent (sample_env_with terse_config) sample_llm terse_conf)
       ∧ Agent.allow_delegation <$> head (Crew.agents crew) = Some true
       ∧ Agent.verbose <$> head (Crew.agents crew) = Some true)
  ∧ ∀ env llm agent_conf,
      Agent.allow_delegation (new_Agent env llm agent_conf)
      = AgentConfig.allow_delegation agent_conf
      ∧ Agent.verbose (new_Agent env llm agent_conf) = true.
Proof.
  split; [vm_compute; reflexivity|].
  split; [reflexivity|].
  split.
  - eexists. split; [vm_compute; reflexivity|].
    repeat split; vm_compute; reflexivity.
  - intros env llm agent_conf. split; reflexivity.
Qed.

(** Without an entry named [sql_dev] assembly stops at the first task with
    [KeyError('sql_dev')], whatever tools the entries declare. *)
Example lone_agent_raises_KeyError :
  (create_crew (sample_env_with lone_agent_config) sample_llm initial_state).1
  = inl (KeyError (py "sql_dev")).
Proof. vm_compute. reflexivity. Qed.

(** C6: a tool name that the four-entry table lacks never makes assembly
    fail.  In a validated configuration whose entries include [sql_dev],
    [data_analyst] and [report_writer], assembly returns a crew whatever tool
    names the entries declare.  For every entry, the agent built from it has
    exactly the tools of the declared names that occur in the table, in the
    declared order, the other names dropped, and the crew holds the agent
    built from the last entry of that name (the entry itself when names are
    not repeated). *)
Theorem unknown_tools_are_dropped (env : Env) (llm : LLM.t) (s : State)
    (y : yaml) (cfg : CrewConfig.t) :
  safe_load env (py "config.yaml") = inr y →
  validate_CrewConfig y = inr cfg →
  py "sql_dev" ∈ AgentConfig.name <$> CrewConfig.agents cfg →
  py "data_analyst" ∈ AgentConfig.name <$> CrewConfig.agents cfg →
  py "report_writer" ∈ AgentConfig.name <$> CrewConfig.agents cfg →
  ∃ crew,
    create_crew env llm s = new_Crew crew s
    ∧ Crew.agents crew = dict_values (create_agents env llm cfg)
    ∧ (∀ n, is_Some (tool_mapping !! n)
            ↔ n ∈ [py "list_tables"; py "tables_schema"; py "execute_sql"; py "check_sql"])
    ∧ ∀ agent_conf, agent_conf ∈ CrewConfig.agents cfg →
        tool_name <$> Agent.tools (new_Agent env llm agent_conf)
        = filter (fun n => is_Some (tool_mapping !! n)) (AgentConfig.tools agent_conf)
        ∧ (∃ last_conf,
             last_conf ∈ CrewConfig.agents cfg
             ∧ AgentConfig.name last_conf = AgentConfig.name agent_conf
             ∧ new_Agent env llm last_conf ∈ Crew.agents crew)
        ∧ (NoDup (AgentConfig.name <$> CrewConfig.agents cfg) →
           new_Agent env llm agent_conf ∈ Crew.agents crew).
Proof.
  intros Hy Hc H1 H2 H3.
  destruct (create_agents_present env llm cfg _ H1) as (c1 & _ & _ & G1).
  destruct (create_agents_present env llm cfg _ H2) as (c2 & _ & _ & G2).
  destruct (create_agents_present env llm cfg _ H3) as (c3 & _ & _ & G3).
  eexists. split.
  { rewrite (create_crew_loaded env llm s y cfg Hy Hc). cbv zeta.
    rewrite G1, G2, G3. reflexivity. }
  split; [reflexivity|]. split; [apply tool_mapping_names|].
  intros agent_conf Hin. split; [apply agent_tools_names|]. split.
  - destruct (create_agents_present env llm cfg (AgentConfig.name agent_conf))
      as (c & Hc' & Hname & Hget).
    { apply list_elem_of_fmap. eauto. }
    exists c. split; [exact Hc'|]. split; [exact Hname|].
    eapply dict_get_values, Hget.
  - intros Hnd. eapply dict_get_values, create_agents_unique; eassumption.
Qed.

Lemma unknown_tools_are_dropped_witness :
  ∃ crew,
    create_crew (sample_env_with mixed_tools_config) sample_llm initial_state
    = new_Crew crew initial_state
    ∧ (fun a => tool_name <$> Agent.tools a) <$> Crew.agents crew
      = [[py "execute_sql"; py "list_tables"]; []; []].
Proof.
  destruct (unknown_tools_are_dropped (sample_env_with mixed_tools_config)
              sample_llm initial_state mixed_tools_config mixed_tools_cfg)
    as (crew & Hcrew & Hagents & _).
  - reflexivity.
  - vm_compute. reflexivity.
  - vm_compute. in_list.
  - vm_compute. in_list.
  - vm_compute. in_list.
  - exists crew. split; [exact Hcrew|]. rewrite Hagents. vm_compute. reflexivity.
Defined.

(** ** Startup *)

Lemma startup_no_key (env : Env) (s : State) :
  truthy (environ env !! py "GROQ_API_KEY") = false →
  startup env s
  = (inl (ValueError (py "GROQ_API_KEY environment variable not set. Please create a .env file and add it.")), s).
Proof. intros H. unfold startup. rewrite H. reflexivity. Qed.

Lemma startup_with_key (env : Env) (s : State) :
  truthy (environ env !! py "GROQ_API_KEY") = true →
  startup env s
  = match database_setup env s with
    | (inl e, s1) => (inl e, s1)
    | (inr _, s1) =>
        create_crew env (LLM.mk (py "groq/llama-3.3-70b-versatile")
                                (default [] (environ env !! py "GROQ_API_KEY"))) s1
    end.
Proof. intros H. unfold startup. rewrite H. reflexivity. Qed.

(** If assembly raises from every state, so does startup. *)
Lemma startup_raises (env : Env) (s : State) :
  (∀ llm s1, ∃ e, (create_crew env llm s1).1 = inl e) →
  ∃ e, (startup env s).1 = inl e.
Proof.
  intros Hc. destruct (truthy (environ env !! py "GROQ_API_KEY")) eqn:Hk.
  - rewrite (startup_with_key env s Hk).
    destruct (database_setup env s) as [[e|u] s1]; [eauto | apply Hc].
  - rewrite (startup_no_key env s Hk). eauto.
Qed.

Lemma create_crew_raises_keeps_count (env : Env) (llm : LLM.t) (s : State) (e : exn) :
  (create_crew env llm s).1 = inl e →
  crews_built (create_crew env llm s).2 = crews_built s.
Proof.
  unfold create_crew. cbv [mbind M_bind].
  pose proof (load_config_frame crews_built env (py "config.yaml")
                (fun _ _ => eq_refl) s) as Hl.
  destruct (load_config env (py "config.yaml") s) as [[e'|cfg] s1]; cbn [fst snd] in *;
    [intros _; exact Hl|].
  unfold call, dict_getitem.
  destruct (dict_get (py "sql_dev") _); [|intros _; exact Hl].
  destruct (dict_get (py "data_analyst") _); [|intros _; exact Hl].
  destruct (dict_get (py "report_writer") _); [|intros _; exact Hl].
  discriminate.
Qed.

Lemma startup_raises_keeps_count (env : Env) (s : State) (e : exn) :
  (startup env s).1 = inl e →
  crews_built (startup env s).2 = crews_built s.
Proof.
  destruct (truthy (environ env !! py "GROQ_API_KEY")) eqn:Hk.
  - rewrite (startup_with_key env s Hk).
    pose proof (database_setup_frame crews_built env
                  (fun _ _ => eq_refl) (fun _ _ => eq_refl) s) as Hd.
    destruct (database_setup env s) as [[e'|u] s1]; cbn [fst snd] in *;
      [intros _; exact Hd|].
    intros He. rewrite (create_crew_raises_keeps_count env _ s1 e He). exact Hd.
  - rewrite (startup_no_key env s Hk). reflexivity.
Qed.

Lemma startup_inr (env : Env) (s s1 : State) (crew : Crew.t) :
  startup env s = (inr crew, s1) →
  ∃ llm s0, create_crew env llm s0 = (inr crew, s1) ∧ crews_built s0 = crews_built s.
Proof.
  destruct (truthy (environ env !! py "GROQ_API_KEY")) eqn:Hk.
  - rewrite (startup_with_key env s Hk).
    pose proof (database_setup_frame crews_built env
                  (fun _ _ => eq_refl) (fun _ _ => eq_refl) s) as Hd.
    destruct (database_setup env s) as [[e'|u] s0]; cbn [fst snd] in *; [discriminate|].
    eauto.
  - rewrite (startup_no_key env s Hk). discriminate.
Qed.

Lemma startup_raises_never_serves (env : Env) (requests : list Request) (s : State) :
  (∃ e, (startup env s).1 = inl e) → never_serves env requests s.
Proof.
  intros [e He]. exists e. rewrite (main_startup_raises env requests s e He). cbn [fst snd].
  split; [reflexivity|]. split; [apply startup_listening|].
  split; [eapply startup_raises_keeps_count, He | apply startup_kickoffs].
Qed.

(** C7: when a validated configuration lacks one of the names [sql_dev],
    [data_analyst], [report_writer], [create_crew] raises [KeyError] for a
    missing one of them and builds nothing; the program then ends with an
    exception before [app.run]: the server is not bound, no request is
    answered and the crew is never run. *)
Theorem missing_agent_name_raises_KeyError (env : Env) (llm : LLM.t) (s : State)
    (y : yaml) (cfg : CrewConfig.t) (requests : list Request) :
  safe_load env (py "config.yaml") = inr y →
  validate_CrewConfig y = inr cfg →
  py "sql_dev" ∉ AgentConfig.name <$> CrewConfig.agents cfg
  ∨ py "data_analyst" ∉ AgentConfig.name <$> CrewConfig.agents cfg
  ∨ py "report_writer" ∉ AgentConfig.name <$> CrewConfig.agents cfg →
  (∃ k, k ∈ [py "sql_dev"; py "data_analyst"; py "report_writer"]
        ∧ (k ∉ AgentConfig.name <$> CrewConfig.agents cfg)
        ∧ create_crew env llm s = (inl (KeyError k), s))
  ∧ never_serves env requests s.
Proof.
  intros Hy Hc Hmiss.
  assert (Hraise : ∀ llm s, ∃ k,
            k ∈ [py "sql_dev"; py "data_analyst"; py "report_writer"]
            ∧ (k ∉ AgentConfig.name <$> CrewConfig.agents cfg)
            ∧ create_crew env llm s = (inl (KeyError k), s)).
  { clear llm s. intros llm s.
    rewrite (create_crew_loaded env llm s y cfg Hy Hc). cbv zeta.
    destruct (decide (py "sql_dev" ∈ AgentConfig.name <$> CrewConfig.agents cfg)) as [H1|H1].
    2:{ exists (py "sql_dev"). rewrite (create_agents_absent env llm cfg _ H1).
        split; [in_list | auto]. }
    destruct (create_agents_present env llm cfg _ H1) as (c1 & _ & _ & ->).
    destruct (decide (py "data_analyst" ∈ AgentConfig.name <$> CrewConfig.agents cfg)) as [H2|H2].
    2:{ exists (py "data_analyst"). rewrite (create_agents_absent env llm cfg _ H2).
        split; [in_list | auto]. }
    destruct (create_agents_present env llm cfg _ H2) as (c2 & _ & _ & ->).
    destruct (decide (py "report_writer" ∈ AgentConfig.name <$> CrewConfig.agents cfg)) as [H3|H3].
    2:{ exists (py "report_writer"). rewrite (create_agents_absent env llm cfg _ H3).
        split; [in_list | auto]. }
    destruct Hmiss as [?|[?|?]]; done. }
  split; [apply Hraise|].
  apply startup_raises_never_serves, startup_raises.
  intros llm' s1. destruct (Hraise llm' s1) as (k & _ & _ & ->). eauto.
Qed.

Lemma missing_agent_name_raises_KeyError_witness :
  (∃ k, k ∈ [py "sql_dev"; py "data_analyst"; py "report_writer"]
        ∧ (k ∉ AgentConfig.name <$> CrewConfig.agents lone_agent_cfg)
        ∧ create_crew (sample_env_with lone_agent_config) sample_llm initial_state
          = (inl (KeyError k), initial_state))
  ∧ never_serves (sample_env_with lone_agent_config)
      [mkRequest POST (py "/process") [(py "query", py "Revenue?")]] initial_state.
Proof.
  apply (missing_agent_name_raises_KeyError (sample_env_with lone_agent_config)
           sample_llm initial_state lone_agent_config lone_agent_cfg).
  - reflexivity.
  - vm_compute. reflexivity.
  - left. change (AgentConfig.name <$> CrewConfig.agents lone_agent_cfg) with [py "helper"].
    not_in_list.
Defined.

(** ** Serving *)

Lemma served_by_refl (crew : Crew.t) (s : State) : served_by crew s s.
Proof. split; [|reflexivity]. exists []. rewrite app_nil_r. auto. Qed.

Lemma served_by_trans (crew : Crew.t) (s1 s2 s3 : State) :
  served_by crew s1 s2 → served_by crew s2 s3 → served_by crew s1 s3.
Proof.
  intros [(l1 & H1 & F1) C1] [(l2 & H2 & F2) C2]. split; [|congruence].
  exists (l1 ++ l2). rewrite H2, H1, app_assoc. split; [reflexivity|].
  apply Forall_app; auto.
Qed.

Lemma process_served_by (env : Env) (crew : Crew.t) (request : Request) (s : State) :
  served_by crew s (process env crew request s).2.
Proof.
  unfold process. destruct (negb _); [apply served_by_refl|].
  unfold kickoff. cbv [mbind M_bind mret M_ret].
  destruct (crew_kickoff env _ crew _); cbn [snd];
    (split; [|reflexivity]); eexists; (split; [reflexivity|]); repeat constructor.
Qed.

Lemma dispatch_served_by (env : Env) (crew : Crew.t) (request : Request) (s : State) :
  served_by crew s (dispatch env crew request s).2.
Proof.
  unfold dispatch, try_except.
  match goal with |- context [?body s] =>
    assert (Hbody : served_by crew s (body s).2)
  end.
  { destruct (decide (path request = py "/")).
    - destruct (method request); apply served_by_refl.
    - destruct (decide (path request = py "/process")); [|apply served_by_refl].
      destruct (method request); [apply served_by_refl | apply process_served_by]. }
  match goal with |- context [?body s] => destruct (body s) as [[e|r] s1] end;
    cbn [find_clause snd] in *; [|exact Hbody].
  destruct (is_Exception e); exact Hbody.
Qed.

Lemma serve_served_by (env : Env) (crew : Crew.t) (requests : list Request) (s : State) :
  served_by crew s (serve env crew requests s).2.
Proof.
  revert s. induction requests as [|request rest IH]; intros s; [apply served_by_refl|].
  cbn [serve]. cbv [mbind M_bind mret M_ret].
  pose proof (dispatch_served_by env crew request s) as Hd.
  destruct (dispatch env crew request s) as [[e|r] s1]; cbn [snd] in *; [exact Hd|].
  pose proof (IH s1) as Hs.
  destruct (serve env crew rest s1) as [[e|rs] s2]; cbn [snd] in *;
    eapply served_by_trans; eassumption.
Qed.

Lemma app_run_served_by (env : Env) (crew : Crew.t) (requests : list Request) (s : State) :
  served_by crew s (app_run env crew requests s).2.
Proof.
  unfold app_run, bind_server. cbv [mbind M_bind].
  eapply served_by_trans; [|apply serve_served_by].
  split; [|reflexivity]. exists []. cbn [kickoffs]. rewrite app_nil_r. auto.
Qed.

(** C8: the crew that startup returns has exactly the three tasks extract,
    analyze, summarize in that order; extract has no context, analyze has
    the context [[extract]], summarize has the context [[analyze]]; the
    process is sequential.  Startup builds one crew.  The program then
    serves every request with that crew: whatever requests arrive, no other
    crew is built and every kickoff recorded is a kickoff of it. *)
Theorem pipeline_is_one_fixed_chain (env : Env) (s s1 : State) (crew : Crew.t) :
  startup env s = (inr crew, s1) →
  (∃ sql_dev data_analyst report_writer,
     let extract_data :=
       Task.mk (py "Extract the data required to answer the question: {query}.")
               (py "A list of data from the database that answers the question.")
               sql_dev None in
     let analyze_data :=
       Task.mk (py "Analyze the data provided and write a brief analysis for the question: {query}.")
               (py "A short, easy-to-understand text analyzing the provided data.")
               data_analyst (Some [extract_data]) in
     let write_report :=
       Task.mk (dedent env (py "Write an executive summary of the report from the analysis. The report must be less than 50 words and presented in markdown."))
               (py "A markdown report summarizing the analysis.")
               report_writer (Some [analyze_data]) in
     Crew.tasks crew = [extract_data; analyze_data; write_report])
  ∧ Crew.process crew = Process.sequential
  ∧ crews_built s1 = S (crews_built s)
  ∧ kickoffs s1 = kickoffs s
  ∧ ∀ requests,
      main env requests s = app_run env crew requests s1
      ∧ crews_built (main env requests s).2 = S (crews_built s)
      ∧ ∃ served,
          kickoffs (main env requests s).2 = kickoffs s ++ served
          ∧ Forall (fun k => k.1 = crew) served.
Proof.
  intros Hs.
  destruct (startup_inr env s s1 crew Hs) as (llm & s0 & Hc & Hcount).
  destruct (create_crew_inr env llm s0 s1 crew Hc) as (cfg & a1 & a2 & a3 & -> & Hbuilt).
  pose proof (startup_kickoffs env s) as Hk. rewrite Hs in Hk. cbn [snd] in Hk.
  split; [exists a1, a2, a3; reflexivity|].
  split; [reflexivity|].
  split; [congruence|].
  split; [exact Hk|].
  intros requests. rewrite (main_startup_returns env requests s s1 _ Hs).
  destruct (app_run_served_by env (crew_of env (create_agents env llm cfg) a1 a2 a3)
              requests s1) as [(served & Hserved & Hall) Hsame].
  split; [reflexivity|]. split; [congruence|].
  exists served. rewrite Hserved, Hk. auto.
Qed.

Lemma pipeline_is_one_fixed_chain_witness :
  length (Crew.tasks sample_crew) = 3%nat
  ∧ (main sample_env
       [ mkRequest POST (py "/process") [(py "query", py "Revenue in 2022?")];
         mkRequest GET (py "/") [];
         mkRequest POST (py "/process") [];
         mkRequest POST (py "/process") [(py "query", py "Largest market cap?")] ]
       initial_state).2
    = mkState [] (Some (mkDataFrame [py "Year"; py "Company"; py "Market_Capin_B_USD";
                                     py "Debt_Equity_Ratio"] (rows sample_frame)))
              1%nat
              [ (sample_crew, [(py "query", py "Revenue in 2022?")]);
                (sample_crew, [(py "query", py "Largest market cap?")]) ]
              true.
Proof.
  destruct (pipeline_is_one_fixed_chain sample_env initial_state
              (startup sample_env initial_state).2 sample_crew)
    as ((a1 & a2 & a3 & Htasks) & _ & _ & _ & Hmain).
  - vm_compute. reflexivity.
  - split; [rewrite Htasks; reflexivity|].
    rewrite (proj1 (Hmain _)). vm_compute. reflexivity.
Defined.

(** ** Fatal startup errors *)

Lemma database_setup_raises (env : Env) (s : State) (e : exn) :
  read_csv env (py "./Financial Statements.csv") = inl e
  ∨ (∃ df, read_csv env (py "./Financial Statements.csv") = inr df
       ∧ (sqlite3_connect env (py "finance.db") = inl e
          ∨ to_sql env (mkDataFrame (normalize_column <$> columns df) (rows df)) = inl e
          ∨ from_uri env (py "sqlite:///finance.db") = inl e)) →
  ∃ e', (database_setup env s).1 = inl e'.
Proof.
  unfold database_setup. run.
  intros [-> | (df & -> & Hfail)].
  { destruct (is_FileNotFoundError e), (is_Exception e); eauto. }
  destruct (sqlite3_connect env _) as [e1|[]] eqn:H1.
  { destruct (is_FileNotFoundError e1), (is_Exception e1); eauto. }
  destruct (to_sql env _) as [e2|[]] eqn:H2.
  { destruct (is_FileNotFoundError e2), (is_Exception e2); eauto. }
  destruct (from_uri env _) as [e3|[]] eqn:H3.
  { destruct (is_FileNotFoundError e3), (is_Exception e3); eauto. }
  destruct Hfail as [H|[H|H]]; congruence.
Qed.

(** The data file is absent: the block logs that and exits. *)
Lemma database_setup_no_file (env : Env) (s : State) :
  read_csv env (py "./Financial Statements.csv") = inl FileNotFoundError →
  database_setup env s
  = (inl SystemExit,
     mkState (log s ++ [py "Error: 'Financial Statements.csv' not found."])
             (finance s) (crews_built s) (kickoffs s) (listening s)).
Proof. intros H. unfold database_setup. run. rewrite H. reflexivity. Qed.

Lemma create_crew_config_exits (env : Env) (llm : LLM.t) (s : State) :
  (∃ e, safe_load env (py "config.yaml") = inl e ∧ is_Exception e = true)
  ∨ (∃ y e, safe_load env (py "config.yaml") = inr y ∧ validate_CrewConfig y = inl e) →
  (create_crew env llm s).1 = inl SystemExit.
Proof.
  intros H. destruct (load_config_exits env (py "config.yaml") s H) as [msg Hl].
  unfold create_crew. cbv [mbind M_bind]. rewrite Hl. reflexivity.
Qed.

(** C9: the program ends with an exception, without binding the server,
    building a crew or running one, in each of these cases: the variable
    GROQ_API_KEY is unset; the file Financial Statements.csv is absent;
    reading it, opening the database, writing the table or reopening the
    database raises; the configuration file is absent; the configuration
    fails validation.  With the variable unset the exception is the
    [ValueError] of the script. *)
Theorem startup_failures_are_fatal (env : Env) (requests : list Request) (s : State) :
  environ env !! py "GROQ_API_KEY" = None
  ∨ read_csv env (py "./Financial Statements.csv") = inl FileNotFoundError
  ∨ (∃ e, read_csv env (py "./Financial Statements.csv") = inl e
          ∨ ∃ df, read_csv env (py "./Financial Statements.csv") = inr df
              ∧ (sqlite3_connect env (py "finance.db") = inl e
                 ∨ to_sql env (mkDataFrame (normalize_column <$> columns df) (rows df)) = inl e
                 ∨ from_uri env (py "sqlite:///finance.db") = inl e))
  ∨ safe_load env (py "config.yaml") = inl FileNotFoundError
  ∨ (∃ y e, safe_load env (py "config.yaml") = inr y ∧ validate_CrewConfig y = inl e) →
  never_serves env requests s
  ∧ (environ env !! py "GROQ_API_KEY" = None →
     main env requests s
     = (inl (ValueError (py "GROQ_API_KEY environment variable not set. Please create a .env file and add it.")), s)).
Proof.
  intros Hcase. split.
  - apply startup_raises_never_serves.
    destruct (truthy (environ env !! py "GROQ_API_KEY")) eqn:Hk.
    2:{ rewrite (startup_no_key env s Hk). eauto. }
    rewrite (startup_with_key env s Hk).
    destruct Hcase as [Hnone | [Hcsv | [[e Hdb] | Hcfg]]].
    + rewrite Hnone in Hk. discriminate.
    + rewrite (database_setup_no_file env s Hcsv). eauto.
    + destruct (database_setup_raises env s e Hdb) as [e' He'].
      destruct (database_setup env s) as [[e0|u] s1]; cbn [fst] in *; [eauto | discriminate].
    + destruct (database_setup env s) as [[e0|u] s1]; [eauto|].
      exists SystemExit. apply create_crew_config_exits.
      destruct Hcfg as [Hmissing | Hinvalid]; [left | right; exact Hinvalid].
      exists FileNotFoundError. auto.
  - intros Hnone.
    rewrite (main_startup_raises env requests s
               (ValueError (py "GROQ_API_KEY environment variable not set. Please create a .env file and add it."))).
    + rewrite startup_no_key by (rewrite Hnone; reflexivity). reflexivity.
    + rewrite startup_no_key by (rewrite Hnone; reflexivity). reflexivity.
Qed.

Lemma startup_failures_are_fatal_witness :
  never_serves
    (mkEnv ∅ (fun _ => inl FileNotFoundError) (fun _ => inr tt) (fun _ => inr tt)
           (fun _ => inr tt) (fun _ => inl FileNotFoundError) (fun s => s)
           (fun _ => py "error") (fun _ _ _ => inr (py "**Summary**")))
    [mkRequest GET (py "/") []] initial_state.
Proof.
  refine (proj1 (startup_failures_are_fatal _ _ _ _)).
  left. reflexivity.
Defined.

(** Each failure on its own, on the sample run. *)
Example startup_without_data_file :
  main (mkEnv (environ sample_env) (fun _ => inl FileNotFoundError) (fun _ => inr tt)
              (fun _ => inr tt) (fun _ => inr tt) (safe_load sample_env) (fun s => s)
              (fun _ => py "error") (fun _ _ _ => inr (py "**Summary**")))
       [mkRequest GET (py "/") []] initial_state
  = (inl SystemExit,
     mkState [py "Error: 'Financial Statements.csv' not found."] None 0 [] false).
Proof. vm_compute. reflexivity. Qed.

Example startup_without_config_file :
  main (mkEnv (environ sample_env) (read_csv sample_env) (fun _ => inr tt)
              (fun _ => inr tt) (fun _ => inr tt) (fun _ => inl FileNotFoundError)
              (fun s => s) (fun _ => py "error") (fun _ _ _ => inr (py "**Summary**")))
       [mkRequest GET (py "/") []] initial_state
  = (inl SystemExit,
     mkState [py "Error: Configuration file 'config.yaml' not found."]
             (Some (mkDataFrame [py "Year"; py "Company"; py "Market_Capin_B_USD";
                                 py "Debt_Equity_Ratio"] (rows sample_frame)))
             0 [] false).
Proof. vm_compute. reflexivity. Qed.

Example startup_with_invalid_config :
  main (sample_env_with (YMap (<[py "agents" := YSeq [YMap (<[py "name" := YStr (py "sql_dev")]> ∅)]]> ∅)))
       [mkRequest GET (py "/") []] initial_state
  = (inl SystemExit,
     mkState [py "Error loading or validating configuration: error"]
             (Some (mkDataFrame [py "Year"; py "Company"; py "Market_Capin_B_USD";
                                 py "Debt_Equity_Ratio"] (rows sample_frame)))
             0 [] false).
Proof. vm_compute. reflexivity. Qed.

(** * Further properties *)

(** ** Column labels, character by character *)

Lemma normalize_char_length (c : N) : (length (normalize_char c) ≤ 1)%nat.
Proof.
  unfold normalize_char.
  destruct ((c =? 32) || (c =? 47)); [cbn; lia|].
  destruct ((c =? 40) || (c =? 41)); cbn; lia.
Qed.

Lemma normalize_char_nil (c : N) : normalize_char c = [] ↔ c = 40 ∨ c = 41.
Proof.
  unfold normalize_char.
  destruct (N.eqb_spec c 32) as [->|H32]; [cbn; split; [discriminate | intros [|]; discriminate]|].
  destruct (N.eqb_spec c 47) as [->|H47]; [cbn; split; [discriminate | intros [|]; discriminate]|].
  destruct (N.eqb_spec c 40) as [->|H40]; [cbn; split; auto|].
  destruct (N.eqb_spec c 41) as [->|H41]; [cbn; split; auto|].
  cbn. split; [discriminate | intros [|]; contradiction].
Qed.

Lemma bind_length_le (s : pystr) :
  (length (s ≫= normalize_char) ≤ length s)%nat.
Proof.
  induction s as [|c s IH]; [reflexivity|].
  cbn [mbind list_bind]. rewrite length_app. cbn [length].
  pose proof (normalize_char_length c). lia.
Qed.

Lemma strip_length (h : pystr) : (length (strip h) ≤ length h)%nat.
Proof.
  destruct (strip_split h) as (pre & suf & Heq & _).
  rewrite Heq at 2. rewrite !length_app. lia.
Qed.

(** X1: the four chained replacements amount to one pass over the stripped
    header: every space and every slash becomes an underscore, every
    parenthesis is dropped, every other character is kept where it is.  The
    stored name is therefore never longer than the header. *)
Theorem normalize_column_is_one_pass (h : pystr) :
  normalize_column h = strip h ≫= normalize_char
  ∧ (length (normalize_column h) ≤ length h)%nat.
Proof.
  split; [apply normalize_column_chars|].
  rewrite normalize_column_chars.
  pose proof (bind_length_le (strip h)). pose proof (strip_length h). lia.
Qed.

Lemma lstrip_spaces (pre x : pystr) :
  Forall (fun c => is_space c = true) pre → lstrip (pre ++ x) = lstrip x.
Proof.
  induction 1 as [|c pre Hc _ IH]; [reflexivity|].
  cbn [app lstrip]. rewrite Hc. exact IH.
Qed.

Lemma rstrip_spaces (x suf : pystr) :
  Forall (fun c => is_space c = true) suf → rstrip (x ++ suf) = rstrip x.
Proof.
  intros Hsuf. unfold rstrip. rewrite reverse_app, lstrip_spaces; [reflexivity|].
  apply Forall_reverse, Hsuf.
Qed.

Lemma strip_spaces (pre h suf : pystr) :
  Forall (fun c => is_space c = true) pre →
  Forall (fun c => is_space c = true) suf →
  strip (pre ++ h ++ suf) = strip h.
Proof.
  intros Hpre Hsuf. unfold strip. rewrite lstrip_spaces by exact Hpre.
  clear pre Hpre. induction h as [|c h IH].
  - cbn [app]. rewrite <- (app_nil_r suf), lstrip_spaces by exact Hsuf. reflexivity.
  - cbn [app lstrip]. destruct (is_space c); [exact IH|].
    change (c :: h ++ suf) with ((c :: h) ++ suf). apply rstrip_spaces, Hsuf.
Qed.

(** X2: whitespace around a header never reaches the stored name: two
    headers that differ only by leading and trailing whitespace characters
    (spaces, tabs, line ends, no-break spaces, ...) get the same name. *)
Theorem normalize_column_ignores_outer_whitespace (pre h suf : pystr) :
  Forall (fun c => is_space c = true) pre →
  Forall (fun c => is_space c = true) suf →
  normalize_column (pre ++ h ++ suf) = normalize_column h.
Proof.
  intros Hpre Hsuf. rewrite !normalize_column_chars, strip_spaces by assumption.
  reflexivity.
Qed.

Lemma normalize_column_ignores_outer_whitespace_witness :
  normalize_column ([9; 32] ++ py "Net Income" ++ [160; 10])
  = normalize_column (py "Net Income").
Proof.
  apply normalize_column_ignores_outer_whitespace; repeat constructor.
Defined.

Lemma strip_trimmed (x : pystr) :
  (∀ c, head x = Some c → is_space c = false) →
  (∀ c, last x = Some c → is_space c = false) →
  strip x = x.
Proof.
  intros Hh Hl. unfold strip. rewrite (lstrip_id x Hh). apply rstrip_id, Hl.
Qed.

Lemma normalize_column_around (a b : pystr) (c : N) :
  (∃ x, head a = Some x ∧ is_space x = false) →
  (∃ x, last b = Some x ∧ is_space x = false) →
  normalize_column (a ++ [c] ++ b)
  = (a ≫= normalize_char) ++ normalize_char c ++ (b ≫= normalize_char).
Proof.
  intros (x & Hx & Hxs) (z & Hz & Hzs).
  rewrite normalize_column_chars, strip_trimmed.
  - rewrite !bind_app. cbn [mbind list_bind]. rewrite app_nil_r. reflexivity.
  - intros d Hd. destruct a as [|a0 a]; [discriminate|].
    cbn in Hd, Hx. congruence.
  - intros d Hd. rewrite app_assoc, last_app, Hz in Hd. congruence.
Qed.

(** X3: normalisation merges headers: between a part that does not start
    with whitespace and a part that does not end with it, a space, a slash
    and an underscore all give the same stored name, so such headers of one
    file end up as one column name. *)
Theorem separators_collide (a b : pystr) :
  (∃ x, head a = Some x ∧ is_space x = false) →
  (∃ x, last b = Some x ∧ is_space x = false) →
  normalize_column (a ++ py " " ++ b) = normalize_column (a ++ py "_" ++ b)
  ∧ normalize_column (a ++ py "/" ++ b) = normalize_column (a ++ py "_" ++ b).
Proof.
  intros Ha Hb. change (py " ") with [32]. change (py "/") with [47].
  change (py "_") with [95].
  rewrite !normalize_column_around by assumption. split; reflexivity.
Qed.

Lemma separators_collide_witness :
  normalize_column (py "Debt" ++ py " " ++ py "Equity")
  = normalize_column (py "Debt" ++ py "_" ++ py "Equity")
  ∧ normalize_column (py "Debt" ++ py "/" ++ py "Equity")
    = normalize_column (py "Debt" ++ py "_" ++ py "Equity").
Proof.
  apply separators_collide.
  - exists 68. split; reflexivity.
  - exists 121. split; reflexivity.
Defined.

Lemma bind_normalize_char_nil (s : pystr) :
  s ≫= normalize_char = [] ↔ Forall (fun c => c = 40 ∨ c = 41) s.
Proof.
  induction s as [|c s IH]; [split; [constructor | reflexivity]|].
  cbn [mbind list_bind]. rewrite Forall_cons, <- IH, <- normalize_char_nil.
  split.
  - intros H. apply app_eq_nil in H. exact H.
  - intros [-> ->]. reflexivity.
Qed.

Lemma strip_blank (h : pystr) :
  Forall (fun c => is_space c = true) h → strip h = [].
Proof.
  intros Hh. unfold strip.
  rewrite <- (app_nil_r h), lstrip_spaces by exact Hh. reflexivity.
Qed.

(** X4: the normalised name is empty exactly when the stripped header
    consists of parentheses only; in particular a header of whitespace
    alone, or an empty one, normalises to the empty name. *)
Theorem normalize_column_empty (h : pystr) :
  (normalize_column h = [] ↔ Forall (fun c => c = 40 ∨ c = 41) (strip h))
  ∧ (Forall (fun c => is_space c = true) h → normalize_column h = []).
Proof.
  rewrite normalize_column_chars. split; [apply bind_normalize_char_nil|].
  intros Hh. rewrite strip_blank by exact Hh. reflexivity.
Qed.

Lemma normalize_column_empty_witness :
  normalize_column [32; 9; 160] = [].
Proof.
  apply (proj2 (normalize_column_empty [32; 9; 160])). repeat constructor.
Defined.

(** ** The database block, outcome by outcome *)

(** X5: the database block returns normally exactly when reading the CSV,
    opening finance.db, writing the table and reopening the database all
    succeed; the store then holds the frame read, its labels normalised and
    its rows untouched, whatever table was there before, and nothing is
    logged. *)
Theorem database_setup_returns_iff (env : Env) (s : State) :
  ((database_setup env s).1 = inr tt
   ↔ ∃ df, read_csv env (py "./Financial Statements.csv") = inr df
       ∧ sqlite3_connect env (py "finance.db") = inr tt
       ∧ to_sql env (normalized_frame df) = inr tt
       ∧ from_uri env (py "sqlite:///finance.db") = inr tt)
  ∧ ∀ df, read_csv env (py "./Financial Statements.csv") = inr df →
      (database_setup env s).1 = inr tt →
      (database_setup env s).2
      = mkState (log s) (Some (normalized_frame df))
                (crews_built s) (kickoffs s) (listening s)
      ∧ length (columns (normalized_frame df)) = length (columns df)
      ∧ rows (normalized_frame df) = rows df.
Proof.
  unfold normalized_frame, database_setup. run. split; [split|].
  - destruct (read_csv env _) as [e|df].
    { destruct (is_FileNotFoundError e), (is_Exception e); discriminate. }
    destruct (sqlite3_connect env _) as [e|[]].
    { destruct (is_FileNotFoundError e), (is_Exception e); discriminate. }
    destruct (to_sql env _) as [e|[]] eqn:Hw.
    { destruct (is_FileNotFoundError e), (is_Exception e); discriminate. }
    destruct (from_uri env _) as [e|[]].
    { destruct (is_FileNotFoundError e), (is_Exception e); discriminate. }
    intros _. exists df. auto.
  - intros (df & -> & -> & -> & ->). reflexivity.
  - intros df ->.
    destruct (sqlite3_connect env _) as [e|[]].
    { destruct (is_FileNotFoundError e), (is_Exception e); discriminate. }
    destruct (to_sql env _) as [e|[]].
    { destruct (is_FileNotFoundError e), (is_Exception e); discriminate. }
    destruct (from_uri env _) as [e|[]].
    { destruct (is_FileNotFoundError e), (is_Exception e); discriminate. }
    intros _. cbn [snd columns rows]. rewrite length_fmap. auto.
Qed.

Lemma database_setup_returns_iff_witness :
  (database_setup sample_env (mkState [] (Some (mkDataFrame [py "old"] [])) 0 [] false)).2
  = mkState [] (Some (normalized_frame sample_frame)) 0 [] false.
Proof.
  refine (proj1 (proj2 (database_setup_returns_iff sample_env _) sample_frame _ _));
    reflexivity.
Defined.

(** X6: the database block is not atomic.  When the table has been written
    and reopening the database then raises, the block logs one record and
    exits, and the store keeps the table just written. *)
Theorem database_setup_exits_after_writing (env : Env) (s : State)
    (df : DataFrame) (e : exn) :
  read_csv env (py "./Financial Statements.csv") = inr df →
  sqlite3_connect env (py "finance.db") = inr tt →
  to_sql env (normalized_frame df) = inr tt →
  from_uri env (py "sqlite:///finance.db") = inl e →
  is_Exception e = true →
  ∃ msg,
    database_setup env s
    = (inl SystemExit,
       mkState (log s ++ [msg]) (Some (normalized_frame df))
               (crews_built s) (kickoffs s) (listening s)).
Proof.
  unfold normalized_frame, database_setup. run.
  intros -> -> -> -> He. rewrite He.
  destruct (is_FileNotFoundError e); eauto.
Qed.

Lemma database_setup_exits_after_writing_witness :
  ∃ msg,
    database_setup
      (mkEnv (environ sample_env) (read_csv sample_env) (fun _ => inr tt)
             (fun _ => inr tt) (fun _ => inl LibraryError) (safe_load sample_env)
             (fun s => s) (fun _ => py "error") (crew_kickoff sample_env))
      initial_state
    = (inl SystemExit,
       mkState ([] ++ [msg]) (Some (normalized_frame sample_frame)) 0 [] false).
Proof.
  apply (database_setup_exits_after_writing _ initial_state sample_frame LibraryError);
    reflexivity.
Defined.

(** ** Loading the configuration *)

(** X7: [load_config] returns a configuration exactly when the file loads and
    its content validates, and then returns the validated content leaving the
    state as it was; when the file is missing it logs one record that quotes
    the path and exits. *)
Theorem load_config_returns_iff (env : Env) (path : pystr) (s s' : State)
    (cfg : CrewConfig.t) :
  (load_config env path s = (inr cfg, s')
   ↔ s' = s ∧ ∃ y, safe_load env path = inr y ∧ validate_CrewConfig y = inr cfg)
  ∧ (safe_load env path = inl FileNotFoundError →
     load_config env path s
     = (inl SystemExit,
        mkState (log s ++ [py "Error: Configuration file '" ++ path ++ py "' not found."])
                (finance s) (crews_built s) (kickoffs s) (listening s))).
Proof.
  split; [split|].
  - apply load_config_inr.
  - intros (-> & y & Hy & Hc). apply (load_config_ok env path s y cfg Hy Hc).
  - intros H. unfold load_config. run. rewrite H. reflexivity.
Qed.

Lemma load_config_returns_iff_witness :
  load_config
    (mkEnv (environ sample_env) (read_csv sample_env) (fun _ => inr tt)
           (fun _ => inr tt) (fun _ => inr tt) (fun _ => inl FileNotFoundError)
           (fun s => s) (fun _ => py "error") (crew_kickoff sample_env))
    (py "crew.yaml") initial_state
  = (inl SystemExit,
     mkState ([] ++ [py "Error: Configuration file '" ++ py "crew.yaml" ++ py "' not found."])
             None 0 [] false).
Proof.
  refine (proj2 (load_config_returns_iff _ (py "crew.yaml") initial_state initial_state
                   (CrewConfig.mk [])) _).
  reflexivity.
Defined.

(** ** Validation: defaults, unknown keys, sequences *)

(** X8: an entry that gives the four texts and none of [tools],
    [allow_delegation], [verbose] is accepted, with no tools, delegation off
    and verbosity on. *)
Theorem validate_AgentConfig_defaults (m : gmap pystr yaml) (n r g b : pystr) :
  m !! py "name" = Some (YStr n) →
  m !! py "role" = Some (YStr r) →
  m !! py "goal" = Some (YStr g) →
  m !! py "backstory" = Some (YStr b) →
  m !! py "tools" = None →
  m !! py "allow_delegation" = None →
  m !! py "verbose" = None →
  validate_AgentConfig (YMap m) = inr (AgentConfig.mk n r g b [] false true).
Proof.
  intros Hn Hr Hg Hb Ht Hd Hv. cbn [validate_AgentConfig].
  rewrite Hn, Hr, Hg, Hb, Ht, Hd, Hv. reflexivity.
Qed.

Lemma validate_AgentConfig_defaults_witness :
  validate_AgentConfig blank_agent
  = inr (AgentConfig.mk (py "") (py "") (py "Answer the question")
           (py "You know the finance table.") [] false true).
Proof.
  unfold blank_agent. apply validate_AgentConfig_defaults; vm_compute; reflexivity.
Defined.

(** X9: a key that the schema does not name changes nothing: with or
    without it the entry validates to the same descriptor, or fails alike. *)
Theorem validate_AgentConfig_ignores_unknown_key (m : gmap pystr yaml)
    (k : pystr) (v : yaml) :
  k ∉ [py "name"; py "role"; py "goal"; py "backstory"; py "tools";
       py "allow_delegation"; py "verbose"] →
  validate_AgentConfig (YMap (<[k := v]> m)) = validate_AgentConfig (YMap m).
Proof.
  intros Hk. rewrite !not_elem_of_cons in Hk.
  destruct Hk as (H1 & H2 & H3 & H4 & H5 & H6 & H7 & _).
  cbn [validate_AgentConfig].
  rewrite !lookup_insert_ne by congruence. reflexivity.
Qed.

Lemma validate_AgentConfig_ignores_unknown_key_witness :
  validate_AgentConfig
    (YMap (<[py "max_iter" := YInt 5]>
           (<[py "name" := YStr (py "sql_dev")]>
            (<[py "role" := YStr (py "Analyst")]>
             (<[py "goal" := YStr (py "Answer")]>
              (<[py "backstory" := YStr (py "Knows SQL")]> ∅))))))
  = validate_AgentConfig
      (YMap (<[py "name" := YStr (py "sql_dev")]>
             (<[py "role" := YStr (py "Analyst")]>
              (<[py "goal" := YStr (py "Answer")]>
               (<[py "backstory" := YStr (py "Knows SQL")]> ∅))))).
Proof.
  apply validate_AgentConfig_ignores_unknown_key. not_in_list.
Defined.

Lemma validate_items_inr {A} (f : yaml → exn + A) (l : list yaml) (r : list A) :
  validate_items f l = inr r ↔ Forall2 (fun v a => f v = inr a) l r.
Proof.
  revert r. induction l as [|v l IH]; intros r; cbn [validate_items].
  - split; [intros [= <-]; constructor | intros H; inversion H; reflexivity].
  - split.
    + destruct (f v) as [e|a] eqn:Hv; [discriminate|].
      destruct (validate_items f l) as [e|r'] eqn:Hl; [discriminate|].
      intros [= <-]. constructor; [exact Hv | apply IH; reflexivity].
    + intros H. inversion H as [|v' a l' r' Hv Hl]; subst.
      rewrite Hv. apply IH in Hl. rewrite Hl. reflexivity.
Qed.

(** X10: a configuration validates exactly when it has a sequence under
    [agents] and every entry of it validates; its descriptors are then those
    of the entries, one for one and in the order of the file. *)
Theorem validate_CrewConfig_entrywise (m : gmap pystr yaml) (cfg : CrewConfig.t) :
  validate_CrewConfig (YMap m) = inr cfg
  ↔ ∃ items, m !! py "agents" = Some (YSeq items)
       ∧ Forall2 (fun v a => validate_AgentConfig v = inr a)
                 items (CrewConfig.agents cfg).
Proof.
  cbn [validate_CrewConfig]. split.
  - intros H. apply bind_inr in H as (l & Hl & [= <-]).
    destruct (m !! py "agents") as [[| | | |items|]|]; try discriminate Hl.
    exists items. split; [reflexivity|]. apply validate_items_inr, Hl.
  - intros (items & -> & Hall). cbn [required validate_list].
    apply validate_items_inr in Hall. rewrite Hall. destruct cfg. reflexivity.
Qed.

(** ** The agents dictionary, key by key *)

Lemma dict_set_fresh {V} (k : pystr) (v : V) (d : list (pystr * V)) :
  k ∉ d.*1 → dict_set k v d = d ++ [(k, v)].
Proof.
  induction d as [|[k' v'] d IH]; intros Hk; [reflexivity|].
  cbn [fmap list_fmap fst] in Hk. apply not_elem_of_cons in Hk as [Hne Hk].
  cbn [dict_set]. rewrite decide_False by congruence. cbn [app]. f_equal. apply IH, Hk.
Qed.

Lemma dict_set_keys {V} (k : pystr) (v : V) (d : list (pystr * V)) :
  (dict_set k v d).*1 = if decide (k ∈ d.*1) then d.*1 else d.*1 ++ [k].
Proof.
  induction d as [|[k' v'] d IH]; cbn [dict_set fmap list_fmap fst].
  - rewrite decide_False by apply not_elem_of_nil. reflexivity.
  - destruct (decide (k' = k)) as [->|Hne]; cbn [fmap list_fmap fst].
    + rewrite decide_True by apply list_elem_of_here. reflexivity.
    + rewrite IH. destruct (decide (k ∈ d.*1)) as [Hin|Hout].
      * rewrite decide_True by (apply list_elem_of_further, Hin). reflexivity.
      * rewrite decide_False; [reflexivity|].
        rewrite not_elem_of_cons. split; [congruence | exact Hout].
Qed.

Lemma elem_of_dict_set {V} (k : pystr) (v : V) (d : list (pystr * V)) (x : pystr * V) :
  x ∈ dict_set k v d → x = (k, v) ∨ x ∈ d.
Proof.
  induction d as [|[k' v'] d IH]; cbn [dict_set].
  - intros H. apply list_elem_of_singleton in H. auto.
  - destruct (decide (k' = k)).
    + intros H. apply elem_of_cons in H as [-> | H]; [auto|].
      right. apply list_elem_of_further, H.
    + intros H. apply elem_of_cons in H as [-> | H]; [right; apply list_elem_of_here|].
      destruct (IH H) as [-> | Hd]; [auto|]. right. apply list_elem_of_further, Hd.
Qed.

Section AgentsDictionary.
Context (env : Env) (llm : LLM.t).

Let entry (c : AgentConfig.t) : pystr * Agent.t :=
  (AgentConfig.name c, new_Agent env llm c).

Let add (agents : list (pystr * Agent.t)) (agent_conf : AgentConfig.t) :=
  dict_set (AgentConfig.name agent_conf) (new_Agent env llm agent_conf) agents.

Lemma agents_loop_distinct (l : list AgentConfig.t) (d : list (pystr * Agent.t)) :
  NoDup (AgentConfig.name <$> l) →
  (∀ n, n ∈ AgentConfig.name <$> l → n ∉ d.*1) →
  foldl add d l = d ++ (entry <$> l).
Proof.
  revert d. induction l as [|c l IH]; intros d Hnd Hfresh.
  - cbn. rewrite app_nil_r. reflexivity.
  - cbn [fmap list_fmap] in Hnd. apply NoDup_cons in Hnd as [Hc Hnd].
    cbn [foldl fmap list_fmap]. unfold add at 2.
    rewrite dict_set_fresh by (apply Hfresh, list_elem_of_here).
    rewrite IH; [rewrite <- app_assoc; reflexivity | exact Hnd |].
    intros n Hn. rewrite fmap_app, not_elem_of_app. split.
    + apply Hfresh, list_elem_of_further, Hn.
    + cbn. rewrite list_elem_of_singleton. intros ->. exact (Hc Hn).
Qed.

Lemma agents_loop_keys (l : list AgentConfig.t) (d : list (pystr * Agent.t)) :
  NoDup d.*1 →
  NoDup (foldl add d l).*1
  ∧ ∀ n, n ∈ (foldl add d l).*1 ↔ n ∈ d.*1 ∨ n ∈ AgentConfig.name <$> l.
Proof.
  revert d. induction l as [|c l IH]; intros d Hd.
  - split; [exact Hd|]. intros n. cbn. rewrite elem_of_nil. tauto.
  - cbn [foldl].
    assert (Hk : (add d c).*1
                 = if decide (AgentConfig.name c ∈ d.*1) then d.*1
                   else d.*1 ++ [AgentConfig.name c]) by apply dict_set_keys.
    assert (Hnd : NoDup (add d c).*1).
    { rewrite Hk. destruct (decide _) as [Hin|Hout]; [exact Hd|].
      apply NoDup_app. split; [exact Hd|]. split; [|apply NoDup_singleton].
      intros x Hx Hx'. apply list_elem_of_singleton in Hx' as ->. exact (Hout Hx). }
    destruct (IH (add d c) Hnd) as [Hnd' Hmem]. split; [exact Hnd'|].
    intros n. rewrite Hmem, Hk. cbn [fmap list_fmap]. rewrite elem_of_cons.
    destruct (decide _) as [Hin|Hout].
    + split; [tauto|]. intros [?|[->|?]]; auto.
    + rewrite elem_of_app, list_elem_of_singleton. tauto.
Qed.

Lemma agents_loop_values (l : list AgentConfig.t) (d : list (pystr * Agent.t))
    (x : pystr * Agent.t) :
  x ∈ foldl add d l → x ∈ d ∨ ∃ c, c ∈ l ∧ x = entry c.
Proof.
  revert d. induction l as [|c l IH]; intros d; [auto|].
  cbn [foldl]. intros H. destruct (IH _ H) as [Hd | (c' & Hc' & ->)].
  - apply elem_of_dict_set in Hd as [-> | Hd]; [|auto].
    right. exists c. split; [apply list_elem_of_here | reflexivity].
  - right. exists c'. split; [apply list_elem_of_further, Hc' | reflexivity].
Qed.

Lemma agents_loop_last (l1 l2 : list AgentConfig.t) (c : AgentConfig.t)
    (d : list (pystr * Agent.t)) :
  AgentConfig.name c ∉ AgentConfig.name <$> l2 →
  dict_get (AgentConfig.name c) (foldl add d (l1 ++ c :: l2))
  = Some (new_Agent env llm c).
Proof.
  intros Hc. rewrite foldl_app. cbn [foldl].
  unfold add at 1. rewrite (agents_loop_absent env llm l2 _ _ Hc).
  apply dict_get_set_eq.
Qed.
End AgentsDictionary.

(** X11: when the entries of the configuration have pairwise distinct
    names, the agents dictionary has one agent per entry, under the entry's
    name and in the order of the file; the crew's agent list is then the
    list of agents built from the entries, in that order. *)
Theorem create_agents_distinct_names (env : Env) (llm : LLM.t) (cfg : CrewConfig.t) :
  NoDup (AgentConfig.name <$> CrewConfig.agents cfg) →
  create_agents env llm cfg
  = (fun c => (AgentConfig.name c, new_Agent env llm c)) <$> CrewConfig.agents cfg
  ∧ dict_values (create_agents env llm cfg)
    = new_Agent env llm <$> CrewConfig.agents cfg.
Proof.
  intros Hnd.
  assert (H : create_agents env llm cfg
              = (fun c => (AgentConfig.name c, new_Agent env llm c))
                  <$> CrewConfig.agents cfg).
  { unfold create_agents. rewrite (agents_loop_distinct env llm _ [] Hnd); [reflexivity|].
    intros n _. apply not_elem_of_nil. }
  split; [exact H|]. unfold dict_values. rewrite H, <- list_fmap_compose. reflexivity.
Qed.

Lemma create_agents_distinct_names_witness :
  dict_values (create_agents sample_env sample_llm mixed_tools_cfg)
  = new_Agent sample_env sample_llm <$> CrewConfig.agents mixed_tools_cfg.
Proof.
  apply (create_agents_distinct_names sample_env sample_llm mixed_tools_cfg).
  vm_compute. repeat (constructor; [not_in_list|]). constructor.
Defined.

(** X12: entries that repeat a name overwrite one another: the dictionary
    holds, under a name, the agent built from the last entry of that name. *)
Theorem create_agents_last_entry_wins (env : Env) (llm : LLM.t)
    (l1 l2 : list AgentConfig.t) (c : AgentConfig.t) :
  AgentConfig.name c ∉ AgentConfig.name <$> l2 →
  dict_get (AgentConfig.name c) (create_agents env llm (CrewConfig.mk (l1 ++ c :: l2)))
  = Some (new_Agent env llm c).
Proof. intros Hc. unfold create_agents. cbn [CrewConfig.agents]. apply agents_loop_last, Hc. Qed.

Lemma create_agents_last_entry_wins_witness :
  dict_get (py "sql_dev")
    (create_agents sample_env sample_llm
       (CrewConfig.mk ([AgentConfig.mk (py "sql_dev") (py "First") (py "g") (py "b")
                          [py "list_tables"] false true]
                       ++ terse_conf :: [])))
  = Some (new_Agent sample_env sample_llm terse_conf).
Proof.
  apply (create_agents_last_entry_wins sample_env sample_llm
           [AgentConfig.mk (py "sql_dev") (py "First") (py "g") (py "b")
              [py "list_tables"] false true] [] terse_conf).
  apply not_elem_of_nil.
Defined.

Lemma create_agents_values (env : Env) (llm : LLM.t) (cfg : CrewConfig.t) (a : Agent.t) :
  a ∈ dict_values (create_agents env llm cfg) →
  ∃ c, c ∈ CrewConfig.agents cfg ∧ a = new_Agent env llm c.
Proof.
  intros Ha. unfold dict_values in Ha.
  apply list_elem_of_fmap in Ha as ([k a'] & -> & Hx).
  destruct (agents_loop_values env llm _ [] _ Hx) as [Hnil | (c & Hc & Heq)].
  - by apply not_elem_of_nil in Hnil.
  - exists c. split; [exact Hc|]. injection Heq as _ ->. reflexivity.
Qed.

(** X13: the keys of the agents dictionary are the names of the entries,
    each once; every agent in it was built from an entry of the
    configuration, so the crew never has more agents than the file has
    entries. *)
Theorem create_agents_keys (env : Env) (llm : LLM.t) (cfg : CrewConfig.t) :
  NoDup (create_agents env llm cfg).*1
  ∧ (∀ n, n ∈ (create_agents env llm cfg).*1 ↔ n ∈ AgentConfig.name <$> CrewConfig.agents cfg)
  ∧ (∀ a, a ∈ dict_values (create_agents env llm cfg) →
          ∃ c, c ∈ CrewConfig.agents cfg ∧ a = new_Agent env llm c)
  ∧ (length (dict_values (create_agents env llm cfg))
     ≤ length (CrewConfig.agents cfg))%nat.
Proof.
  destruct (agents_loop_keys env llm (CrewConfig.agents cfg) [] (NoDup_nil_2))
    as [Hnd Hmem].
  fold (create_agents env llm cfg) in Hnd, Hmem.
  split; [exact Hnd|]. split.
  { intros n. rewrite Hmem. cbn. rewrite elem_of_nil. tauto. }
  split.
  { apply create_agents_values. }
  unfold dict_values. rewrite length_fmap, <- (length_fmap fst).
  rewrite <- (length_fmap AgentConfig.name (CrewConfig.agents cfg)).
  apply submseteq_length, NoDup_submseteq; [exact Hnd|].
  intros n Hn. apply Hmem in Hn as [Hn|Hn]; [by apply not_elem_of_nil in Hn | exact Hn].
Qed.

(** ** The assembled crew, from the inside *)

Lemma create_crew_inr_agents (env : Env) (llm : LLM.t) (s s' : State) (crew : Crew.t) :
  create_crew env llm s = (inr crew, s') →
  ∃ y cfg a1 a2 a3,
    safe_load env (py "config.yaml") = inr y
    ∧ validate_CrewConfig y = inr cfg
    ∧ dict_get (py "sql_dev") (create_agents env llm cfg) = Some a1
    ∧ dict_get (py "data_analyst") (create_agents env llm cfg) = Some a2
    ∧ dict_get (py "report_writer") (create_agents env llm cfg) = Some a3
    ∧ crew = crew_of env (create_agents env llm cfg) a1 a2 a3.
Proof.
  intros H.
  destruct (load_config env (py "config.yaml") s) as [[e|cfg] s1] eqn:Hl.
  { unfold create_crew in H. cbv [mbind M_bind] in H. rewrite Hl in H. discriminate. }
  apply load_config_inr in Hl as (-> & y & Hy & Hc).
  rewrite (create_crew_loaded env llm s y cfg Hy Hc) in H. cbv zeta in H.
  destruct (dict_get (py "sql_dev") _) as [a1|] eqn:H1; [|discriminate].
  destruct (dict_get (py "data_analyst") _) as [a2|] eqn:H2; [|discriminate].
  destruct (dict_get (py "report_writer") _) as [a3|] eqn:H3; [|discriminate].
  injection H as <- _. exists y, cfg, a1, a2, a3. auto 10.
Qed.

Lemma startup_inr_llm (env : Env) (s s1 : State) (crew : Crew.t) :
  startup env s = (inr crew, s1) →
  truthy (environ env !! py "GROQ_API_KEY") = true
  ∧ ∃ s0, database_setup env s = (inr tt, s0)
          ∧ create_crew env (llm_of env) s0 = (inr crew, s1).
Proof.
  destruct (truthy (environ env !! py "GROQ_API_KEY")) eqn:Hk.
  - rewrite (startup_with_key env s Hk).
    destruct (database_setup env s) as [[e|[]] s0]; [discriminate|]. eauto.
  - rewrite (startup_no_key env s Hk). discriminate.
Qed.

Lemma dict_get_create_agents (env : Env) (llm : LLM.t) (cfg : CrewConfig.t)
    (n : pystr) (a : Agent.t) :
  dict_get n (create_agents env llm cfg) = Some a →
  ∃ c, c ∈ CrewConfig.agents cfg ∧ AgentConfig.name c = n ∧ a = new_Agent env llm c.
Proof.
  intros H.
  destruct (decide (n ∈ AgentConfig.name <$> CrewConfig.agents cfg)) as [Hin|Hout].
  - destruct (create_agents_present env llm cfg n Hin) as (c & Hc & Hn & Hg).
    exists c. split; [exact Hc|]. split; [exact Hn|]. congruence.
  - rewrite (create_agents_absent env llm cfg n Hout) in H. discriminate.
Qed.

(** X14: in the crew that startup returns, the three tasks are assigned, in
    order, the agents found under [sql_dev], [data_analyst] and
    [report_writer]; each of them is built from an entry of that name in
    the validated config.yaml and is one of the crew's own agents. *)
Theorem tasks_are_assigned_crew_agents (env : Env) (s s1 : State) (crew : Crew.t) :
  startup env s = (inr crew, s1) →
  ∃ y cfg,
    safe_load env (py "config.yaml") = inr y
    ∧ validate_CrewConfig y = inr cfg
    ∧ Forall2
        (fun n task =>
           dict_get n (create_agents env (llm_of env) cfg) = Some (Task.agent task)
           ∧ Task.agent task ∈ Crew.agents crew
           ∧ ∃ c, c ∈ CrewConfig.agents cfg
                  ∧ AgentConfig.name c = n
                  ∧ Task.agent task = new_Agent env (llm_of env) c)
        [py "sql_dev"; py "data_analyst"; py "report_writer"]
        (Crew.tasks crew).
Proof.
  intros Hs. apply startup_inr_llm in Hs as (_ & s0 & _ & Hc).
  apply create_crew_inr_agents in Hc as (y & cfg & a1 & a2 & a3 & Hy & Hv & H1 & H2 & H3 & ->).
  exists y, cfg. split; [exact Hy|]. split; [exact Hv|].
  cbn [crew_of Crew.tasks Crew.agents].
  repeat (constructor;
          [cbn [Task.agent]; split; [assumption|];
           split; [eapply dict_get_values; eassumption
                  | eapply dict_get_create_agents; eassumption]|]).
  constructor.
Qed.

Lemma tasks_are_assigned_crew_agents_witness :
  ∃ y cfg,
    safe_load sample_env (py "config.yaml") = inr y
    ∧ validate_CrewConfig y = inr cfg
    ∧ Forall2
        (fun n task =>
           dict_get n (create_agents sample_env (llm_of sample_env) cfg)
           = Some (Task.agent task)
           ∧ Task.agent task ∈ Crew.agents sample_crew
           ∧ ∃ c, c ∈ CrewConfig.agents cfg
                  ∧ AgentConfig.name c = n
                  ∧ Task.agent task = new_Agent sample_env (llm_of sample_env) c)
        [py "sql_dev"; py "data_analyst"; py "report_writer"]
        (Crew.tasks sample_crew).
Proof.
  apply (tasks_are_assigned_crew_agents sample_env initial_state
           (startup sample_env initial_state).2 sample_crew).
  vm_compute. reflexivity.
Defined.

(** X15: startup returns a crew only when GROQ_API_KEY holds a non-empty
    text, and every agent of that crew is bound to the one client built
    from it: the fixed model name and that key. *)
Theorem crew_agents_share_the_llm (env : Env) (s s1 : State) (crew : Crew.t) :
  startup env s = (inr crew, s1) →
  (∃ c key, environ env !! py "GROQ_API_KEY" = Some (c :: key)
            ∧ llm_of env = LLM.mk (py "groq/llama-3.3-70b-versatile") (c :: key))
  ∧ Forall (fun a => Agent.llm a = llm_of env) (Crew.agents crew).
Proof.
  intros Hs. apply startup_inr_llm in Hs as (Hk & s0 & _ & Hc).
  split.
  - unfold llm_of. destruct (environ env !! py "GROQ_API_KEY") as [[|c key]|];
      try discriminate Hk. exists c, key. split; reflexivity.
  - apply create_crew_inr_agents in Hc as (y & cfg & a1 & a2 & a3 & _ & _ & _ & _ & _ & ->).
    cbn [crew_of Crew.agents]. apply Forall_forall. intros a Ha.
    destruct (create_agents_values env (llm_of env) cfg a Ha) as (c & _ & ->).
    reflexivity.
Qed.

Lemma crew_agents_share_the_llm_witness :
  Forall (fun a => Agent.llm a = llm_of sample_env) (Crew.agents sample_crew).
Proof.
  refine (proj2 (crew_agents_share_the_llm sample_env initial_state
                   (startup sample_env initial_state).2 sample_crew _)).
  vm_compute. reflexivity.
Defined.

(** ** Startup, when it works and when the key is empty *)

Lemma database_setup_ok (env : Env) (s : State) (df : DataFrame) :
  read_csv env (py "./Financial Statements.csv") = inr df →
  sqlite3_connect env (py "finance.db") = inr tt →
  to_sql env (normalized_frame df) = inr tt →
  from_uri env (py "sqlite:///finance.db") = inr tt →
  database_setup env s
  = (inr tt, mkState (log s) (Some (normalized_frame df))
                     (crews_built s) (kickoffs s) (listening s)).
Proof.
  unfold normalized_frame, database_setup. run. intros -> -> -> ->. reflexivity.
Qed.

(** X16: startup succeeds whenever the key is a non-empty text, the four
    database calls succeed, config.yaml validates and names the three
    agents.  It then logs nothing, leaves the normalised table in the
    store, builds exactly one crew and runs nothing. *)
Theorem startup_succeeds (env : Env) (s : State) (df : DataFrame) (y : yaml)
    (cfg : CrewConfig.t) :
  truthy (environ env !! py "GROQ_API_KEY") = true →
  read_csv env (py "./Financial Statements.csv") = inr df →
  sqlite3_connect env (py "finance.db") = inr tt →
  to_sql env (normalized_frame df) = inr tt →
  from_uri env (py "sqlite:///finance.db") = inr tt →
  safe_load env (py "config.yaml") = inr y →
  validate_CrewConfig y = inr cfg →
  py "sql_dev" ∈ AgentConfig.name <$> CrewConfig.agents cfg →
  py "data_analyst" ∈ AgentConfig.name <$> CrewConfig.agents cfg →
  py "report_writer" ∈ AgentConfig.name <$> CrewConfig.agents cfg →
  ∃ crew,
    startup env s
    = (inr crew, mkState (log s) (Some (normalized_frame df))
                         (S (crews_built s)) (kickoffs s) (listening s)).
Proof.
  intros Hk Hr Hc Hw Hu Hy Hv H1 H2 H3.
  rewrite (startup_with_key env s Hk).
  rewrite (database_setup_ok env s df Hr Hc Hw Hu).
  rewrite (create_crew_loaded env _ _ y cfg Hy Hv). cbv zeta.
  destruct (create_agents_present env
              (LLM.mk (py "groq/llama-3.3-70b-versatile")
                      (default [] (environ env !! py "GROQ_API_KEY"))) cfg _ H1)
    as (c1 & _ & _ & ->).
  destruct (create_agents_present env
              (LLM.mk (py "groq/llama-3.3-70b-versatile")
                      (default [] (environ env !! py "GROQ_API_KEY"))) cfg _ H2)
    as (c2 & _ & _ & ->).
  destruct (create_agents_present env
              (LLM.mk (py "groq/llama-3.3-70b-versatile")
                      (default [] (environ env !! py "GROQ_API_KEY"))) cfg _ H3)
    as (c3 & _ & _ & ->).
  eexists. reflexivity.
Qed.

Lemma startup_succeeds_witness :
  ∃ crew,
    startup (sample_env_with mixed_tools_config) initial_state
    = (inr crew, mkState [] (Some (normalized_frame sample_frame)) 1 [] false).
Proof.
  apply (startup_succeeds (sample_env_with mixed_tools_config) initial_state
           sample_frame mixed_tools_config mixed_tools_cfg);
    try reflexivity; vm_compute; first [reflexivity | in_list].
Defined.

(** X17: a GROQ_API_KEY that is set to the empty text is treated like an
    unset one: the script raises its [ValueError] at once, before any file
    is read, and the state is untouched. *)
Theorem empty_key_is_refused (env : Env) (requests : list Request) (s : State) :
  environ env !! py "GROQ_API_KEY" = Some [] →
  main env requests s
  = (inl (ValueError (py "GROQ_API_KEY environment variable not set. Please create a .env file and add it.")), s).
Proof.
  intros Hk.
  assert (Hs : startup env s
               = (inl (ValueError (py "GROQ_API_KEY environment variable not set. Please create a .env file and add it.")), s)).
  { apply startup_no_key. rewrite Hk. reflexivity. }
  rewrite (main_startup_raises env requests s _ (f_equal fst Hs)), Hs. reflexivity.
Qed.

Lemma empty_key_is_refused_witness :
  main (mkEnv (<[py "GROQ_API_KEY" := py ""]> ∅) (read_csv sample_env) (fun _ => inr tt)
              (fun _ => inr tt) (fun _ => inr tt) (safe_load sample_env)
              (fun s => s) (fun _ => py "error") (crew_kickoff sample_env))
       [mkRequest GET (py "/") []] initial_state
  = (inl (ValueError (py "GROQ_API_KEY environment variable not set. Please create a .env file and add it.")),
     initial_state).
Proof. apply empty_key_is_refused. reflexivity. Defined.

(** ** Serving requests *)

(** The state after one more kickoff of [crew]. *)
Lemma kickoff_state (env : Env) (crew : Crew.t) (inputs : list (pystr * pystr)) (s : State) :
  kickoff env crew inputs s
  = (crew_kickoff env (length (kickoffs s)) crew inputs,
     mkState (log s) (finance s) (crews_built s)
             (kickoffs s ++ [(crew, inputs)]) (listening s)).
Proof. reflexivity. Qed.

(** X18: a POST to /process with a non-empty query runs the crew exactly
    once, with the query as its only input.  If the crew returns, the page
    result.html is rendered with the query as sent and the crew's result;
    if it raises an [Exception], the view raises it and the dispatcher
    answers with status 500.  In both cases the kickoff is recorded and
    nothing else changes. *)
Theorem process_runs_the_crew_once (env : Env) (crew : Crew.t)
    (f : list (pystr * pystr)) (c : N) (q : pystr) (s : State) :
  form_get (py "query") f = Some (c :: q) →
  let request := mkRequest POST (py "/process") f in
  let s' := mkState (log s) (finance s) (crews_built s)
                    (kickoffs s ++ [(crew, [(py "query", c :: q)])]) (listening s) in
  match crew_kickoff env (length (kickoffs s)) crew [(py "query", c :: q)] with
  | inr result =>
      dispatch env crew request s
      = (inr (mkResponse 200 (Rendered (py "result.html")
                [(py "query", c :: q); (py "result", result)])), s')
  | inl e =>
      process env crew request s = (inl e, s')
      ∧ (is_Exception e = true →
         ∃ r, dispatch env crew request s = (inr r, s') ∧ status r = 500%nat)
  end.
Proof.
  intros Hq request s'.
  assert (Hp : process env crew request s
               = match crew_kickoff env (length (kickoffs s)) crew [(py "query", c :: q)] with
                 | inr result =>
                     (inr (mkResponse 200 (Rendered (py "result.html")
                             [(py "query", c :: q); (py "result", result)])), s')
                 | inl e => (inl e, s')
                 end).
  { subst request. unfold process. cbn [form]. rewrite Hq. cbn [truthy negb default].
    cbv [mbind M_bind mret M_ret]. rewrite kickoff_state.
    destruct (crew_kickoff env _ crew _); reflexivity. }
  assert (Hd : dispatch env crew request s
               = match process env crew request s with
                 | (inl e, s1) =>
                     if is_Exception e
                     then (inr (mkResponse 500 ErrorPage), s1)
                     else (inl e, s1)
                 | r' => r'
                 end).
  { subst request. unfold dispatch, try_except. cbn [path method].
    destruct (decide (py "/process" = py "/")) as [Heq|_]; [discriminate Heq|].
    destruct (decide (py "/process" = py "/process")) as [_|Hne]; [|done].
    destruct (process env crew (mkRequest POST (py "/process") f) s) as [[e|r] s1];
      [|reflexivity].
    cbn [find_clause]. destruct (is_Exception e); reflexivity. }
  rewrite Hd, Hp.
  destruct (crew_kickoff env _ crew _) as [e|result]; [|reflexivity].
  split; [reflexivity|]. intros ->. eexists. split; reflexivity.
Qed.

Lemma process_runs_the_crew_once_witness :
  dispatch sample_env sample_crew
           (mkRequest POST (py "/process") [(py "query", py "Revenue in 2022?")])
           initial_state
  = (inr (mkResponse 200 (Rendered (py "result.html")
            [(py "query", py "Revenue in 2022?"); (py "result", py "**Summary**")])),
     mkState [] None 0 ([] ++ [(sample_crew, [(py "query", py "Revenue in 2022?")])]) false).
Proof.
  exact (process_runs_the_crew_once sample_env sample_crew
           [(py "query", py "Revenue in 2022?")] 82 (py "evenue in 2022?")
           initial_state eq_refl).
Defined.

(** One request, when the pipeline raises nothing but [Exception]s: it is
    answered, and the state gains the kickoff the request asks for, if any. *)
Lemma dispatch_answers (env : Env) (crew : Crew.t) (request : Request) (s : State) :
  kickoff_raises_Exceptions env →
  ∃ r s', dispatch env crew request s = (inr r, s')
    ∧ kickoffs s' = kickoffs s ++ match kickoff_inputs request with
                                  | Some inputs => [(crew, inputs)]
                                  | None => []
                                  end
    ∧ log s' = log s ∧ finance s' = finance s
    ∧ crews_built s' = crews_built s ∧ listening s' = listening s.
Proof.
  intros Hexn. unfold dispatch, try_except, kickoff_inputs.
  assert (Hsame : ∀ r, ∃ r0 s',
            (inr r : exn + Response, s) = (inr r0, s')
            ∧ kickoffs s' = kickoffs s ++ []
            ∧ log s' = log s ∧ finance s' = finance s
            ∧ crews_built s' = crews_built s ∧ listening s' = listening s).
  { intros r. exists r, s. rewrite app_nil_r. auto 10. }
  destruct (decide (path request = py "/")) as [Hroot|Hnroot].
  { assert (Hnp : path request ≠ py "/process") by (rewrite Hroot; discriminate).
    destruct (method request); [apply Hsame|].
    rewrite decide_False by exact Hnp. apply Hsame. }
  destruct (decide (path request = py "/process")) as [Hp|Hnp].
  2:{ destruct (method request); apply Hsame. }
  destruct (method request); [apply Hsame|].
  unfold process, form_get.
  destruct (dict_get (py "query") (form request)) as [[|c q]|];
    cbn [truthy negb default]; try apply Hsame.
  cbv [mbind M_bind mret M_ret]. rewrite kickoff_state.
  destruct (crew_kickoff env _ crew _) as [e|result] eqn:Hk.
  - cbn [find_clause]. rewrite (Hexn _ _ _ _ Hk). cbv [mret M_ret].
    eexists _, _. split; [reflexivity|]. cbn. auto 10.
  - eexists _, _. split; [reflexivity|]. cbn. auto 10.
Qed.

Lemma serve_answers (env : Env) (crew : Crew.t) (requests : list Request) (s : State) :
  kickoff_raises_Exceptions env →
  ∃ responses s', serve env crew requests s = (inr responses, s')
    ∧ length responses = length requests
    ∧ kickoffs s' = kickoffs s ++ ((fun inputs => (crew, inputs)) <$> omap kickoff_inputs requests)
    ∧ log s' = log s ∧ finance s' = finance s
    ∧ crews_built s' = crews_built s ∧ listening s' = listening s.
Proof.
  intros Hexn. revert s. induction requests as [|request rest IH]; intros s.
  - exists [], s. cbn. rewrite app_nil_r. auto 10.
  - destruct (dispatch_answers env crew request s Hexn)
      as (r & s1 & Hd & Hk1 & Hl1 & Hf1 & Hc1 & Hb1).
    destruct (IH s1) as (rs & s2 & Hs & Hlen & Hk2 & Hl2 & Hf2 & Hc2 & Hb2).
    exists (r :: rs), s2. cbn [serve]. cbv [mbind M_bind mret M_ret].
    rewrite Hd, Hs. split; [reflexivity|].
    split; [cbn; congruence|].
    split; [|repeat split; congruence].
    rewrite Hk2, Hk1, <- app_assoc. f_equal. cbn [omap list_omap].
    destruct (kickoff_inputs request); reflexivity.
Qed.

(** X19: once startup has returned its crew, and as long as the pipeline
    raises nothing but [Exception]s, the program binds the server and
    answers every request that arrives, one response each.  The crew is run
    once for each POST to /process with a non-empty query, in order of
    arrival and with that query as input, and for no other request (no GET,
    no other path, no empty query); the log, the store and the crew count
    stay as startup left them. *)
Theorem main_answers_every_request (env : Env) (requests : list Request)
    (s s1 : State) (crew : Crew.t) :
  startup env s = (inr crew, s1) →
  kickoff_raises_Exceptions env →
  ∃ responses s2,
    main env requests s = (inr responses, s2)
    ∧ length responses = length requests
    ∧ kickoffs s2
      = kickoffs s ++ ((fun inputs => (crew, inputs)) <$> omap kickoff_inputs requests)
    ∧ listening s2 = true
    ∧ log s2 = log s1 ∧ finance s2 = finance s1 ∧ crews_built s2 = crews_built s1.
Proof.
  intros Hs Hexn. rewrite (main_startup_returns env requests s s1 crew Hs).
  unfold app_run, bind_server. cbv [mbind M_bind].
  pose proof (startup_kickoffs env s) as Hk0. rewrite Hs in Hk0. cbn [snd] in Hk0.
  destruct (serve_answers env crew requests
              (mkState (log s1) (finance s1) (crews_built s1) (kickoffs s1) true) Hexn)
    as (rs & s2 & Hserve & Hlen & Hk & Hl & Hf & Hc & Hb).
  exists rs, s2. rewrite Hserve. cbn in Hk, Hl, Hf, Hc, Hb.
  rewrite Hk0 in Hk. auto 10.
Qed.

Lemma main_answers_every_request_witness :
  ∃ responses s2,
    main sample_env
      [ mkRequest GET (py "/process") [(py "query", py "ignored")];
        mkRequest POST (py "/process") [(py "query", py "")];
        mkRequest POST (py "/ask") [(py "query", py "ignored")];
        mkRequest POST (py "/process") [(py "query", py "Revenue?")] ]
      initial_state
    = (inr responses, s2)
    ∧ status <$> responses = [405; 400; 404; 200]%nat
    ∧ kickoffs s2 = [(sample_crew, [(py "query", py "Revenue?")])].
Proof.
  destruct (main_answers_every_request sample_env
              [ mkRequest GET (py "/process") [(py "query", py "ignored")];
                mkRequest POST (py "/process") [(py "query", py "")];
                mkRequest POST (py "/ask") [(py "query", py "ignored")];
                mkRequest POST (py "/process") [(py "query", py "Revenue?")] ]
              initial_state (startup sample_env initial_state).2 sample_crew)
    as (rs & s2 & Hmain & _ & Hk & _).
  - vm_compute. reflexivity.
  - intros n crew inputs e H. discriminate H.
  - exists rs, s2. split; [exact Hmain|]. split; [|exact Hk].
    assert (Hrun : (main sample_env
                      [ mkRequest GET (py "/process") [(py "query", py "ignored")];
                        mkRequest POST (py "/process") [(py "query", py "")];
                        mkRequest POST (py "/ask") [(py "query", py "ignored")];
                        mkRequest POST (py "/process") [(py "query", py "Revenue?")] ]
                      initial_state).1
                   = inr rs) by (rewrite Hmain; reflexivity).
    vm_compute in Hrun. injection Hrun as <-. reflexivity.
Defined.

(** ** The tool table *)

(** X20: the tool table and the decorators agree: looking up the name a
    tool is registered under gives back that tool, and a lookup that
    succeeds was made with the registered name of the tool it returns; the
    table has four entries. *)
Theorem tool_mapping_round_trip (t : Tool) (n : pystr) :
  tool_mapping !! tool_name t = Some t
  ∧ (tool_mapping !! n = Some t → n = tool_name t)
  ∧ size tool_mapping = 4%nat.
Proof.
  split; [apply tool_mapping_lookup; reflexivity|].
  split; [intros H; symmetry; apply tool_mapping_lookup, H|].
  vm_compute. reflexivity.
Qed.
